(** * kconnect: discovery providers (AKS provider plumbing, EKS discovery)

    A shallow embedding of
      - pkg/plugins/discovery/azure (package azure): [New], [setup],
        [ConfigurationItems] of the AKS cluster provider;
      - pkg/plugins/discovery/aws/discover.go (package aws): [Discover],
        [listClusters], [getClusterConfig] of the EKS cluster provider.

    Go values are modelled as follows.  A pointer or interface that the
    code tests against nil, or dereferences on data it received from a
    collaborator, is an [option]; a nil dereference is a panic.  A function
    returning [(T, error)] returns a pair whose second component is
    [option error] ([None] is the nil error).  A [map[string]*T] is a
    [gmap string T].  Methods that mutate their receiver take the receiver
    and return the new one. *)

From Stdlib Require Import String List Bool Arith Lia.
From stdpp Require Import base option list strings gmap fin_maps.

Local Open Scope string_scope.
Local Open Scope list_scope.

(** ** Go runtime: errors and panics *)

Module Go.

(** An [error] is either a leaf made by [errors.New] (or handed over by a
    library) or a value made by [fmt.Errorf] with one [%w] verb: it keeps
    the formatted message and the wrapped cause. *)
Inductive error : Type :=
| errors_New (msg : string)
| wrapError (msg : string) (cause : error).

(** [err.Error()] *)
Definition Error (e : error) : string :=
  match e with
  | errors_New msg => msg
  | wrapError msg _ => msg
  end.

(** [errors.Unwrap(err)] *)
Definition Unwrap (e : error) : option error :=
  match e with
  | errors_New _ => None
  | wrapError _ cause => Some cause
  end.

(** [fmt.Errorf(prefix + "%w", err)]: every format string of the two
    packages ends in [%w], so the message is the formatted prefix followed
    by the cause's message. *)
Definition fmt_Errorf_w (prefix : string) (err : error) : error :=
  wrapError (prefix +:+ Error err) err.

(** How a call ends: it returns, or the goroutine panics. *)
Inductive Outcome (A : Type) : Type :=
| Returned (a : A)
| Panicked (msg : string).
Arguments Returned {A} a.
Arguments Panicked {A} msg.

Definition nilDereference : string :=
  "runtime error: invalid memory address or nil pointer dereference".

(** An error with everything it wraps: [err], [errors.Unwrap(err)], ... *)
Fixpoint chain (e : error) : list error :=
  e :: match e with
       | errors_New _ => []
       | wrapError _ cause => chain cause
       end.

(** [context.Canceled] *)
Definition context_Canceled : error := errors_New "context canceled".

(** A message names a string when the string occurs in it. *)
Definition mentions (msg name : string) : Prop :=
  exists before after, msg = before +:+ name +:+ after.

End Go.

Import Go.

(** ** pkg/config: configuration sets *)

Module config.

Inductive ItemType : Type := ItemTypeString | ItemTypeBool.

Inductive ItemValue : Type :=
| StringValue (s : string)
| BoolValue (b : bool).

(** Modelled from the spec: the configuration item of pkg/config, which is
    not among the sources.  "ConfigItem{kind: String|Bool|..., default:
    value, description: string, shortAlias: optional char}". *)
Record Item : Type := mkItem {
  Name : string;
  Type_ : ItemType;
  DefaultValue : ItemValue;
  Description : string;
  Shorthand : option string
}.

(** Modelled from the spec: the ConfigurationSet of pkg/config, "an
    ordered mapping of named, typed configuration items", "names unique
    within a set".  The items are kept in declaration order. *)
Definition ConfigurationSet : Type := list Item.

(** Modelled from the spec: [config.NewConfigurationSet()]. *)
Definition NewConfigurationSet : ConfigurationSet := [].

Definition Exists (name : string) (cs : ConfigurationSet) : bool :=
  existsb (fun it => String.eqb (Name it) name) cs.

Definition ErrConfigExists : error :=
  errors_New "configuration item already exists".
Definition ErrConfigNotFound : error :=
  errors_New "configuration item not found".

(** Modelled from the spec: [cs.Add(item)]; names are unique within a
    set, so a second item of the same name is refused. *)
Definition Add (item : Item) (cs : ConfigurationSet)
  : option error * ConfigurationSet :=
  if Exists (Name item) cs then (Some ErrConfigExists, cs)
  else (None, cs ++ [item]).

(** Modelled from the spec: [cs.String(name, defaultValue, description)]
    declares a string item with a default and no short alias. *)
Definition String_ (name defaultValue description : string)
    (cs : ConfigurationSet) : option error * ConfigurationSet :=
  Add (mkItem name ItemTypeString (StringValue defaultValue) description None) cs.

(** Modelled from the spec: [cs.Bool(name, defaultValue, description)]. *)
Definition Bool_ (name : string) (defaultValue : bool) (description : string)
    (cs : ConfigurationSet) : option error * ConfigurationSet :=
  Add (mkItem name ItemTypeBool (BoolValue defaultValue) description None) cs.

Definition withShorthand (shorthand : string) (it : Item) : Item :=
  mkItem (Name it) (Type_ it) (DefaultValue it) (Description it) (Some shorthand).

(** Modelled from the spec: [cs.SetShort(name, shorthand)] gives the named
    item its short alias; alias conflicts are found "at merge time (not at
    individual declaration time)", so none is looked for here. *)
Definition SetShort (name shorthand : string) (cs : ConfigurationSet)
  : option error * ConfigurationSet :=
  if Exists name cs
  then (None, map (fun it => if String.eqb (Name it) name
                             then withShorthand shorthand it else it) cs)
  else (Some ErrConfigNotFound, cs).

(** [cs.Get(name)] *)
Definition Get (name : string) (cs : ConfigurationSet) : option Item :=
  find (fun it => String.eqb (Name it) name) cs.

End config.

(** ** Identities and authorizers *)

Module oidc.
(** Modelled from the spec: [oidc.Identity] of pkg/oidc,
    "OIDCIdentity{token material}", produced by an identity provider. *)
Record Identity : Type := mkIdentity {
  IDToken : string;
  idProviderName : string
}.
End oidc.

Module autorest.
(** [autorest.Authorizer]: the bearer authorizer built by
    [autorest.NewBearerAuthorizer] around a token provider, or any other
    implementation of the interface. *)
Inductive Authorizer : Type :=
| NewBearerAuthorizer (tokenProvider : oidc.Identity)
| otherAuthorizer (handle : string).
End autorest.

Module azid.
(** Modelled from the spec: [AuthorizerIdentity] of pkg/azure/identity,
    "AuthorizerIdentity{prebuilt authorizer}"; the interface value it
    carries may be nil. *)
Record AuthorizerIdentity : Type := mkAuthorizerIdentity {
  authorizer : option autorest.Authorizer;
  idProviderName : string
}.

(** [id.Authorizer()] *)
Definition Authorizer (id : AuthorizerIdentity) : option autorest.Authorizer :=
  authorizer id.
End azid.

Module identity.
(** [identity.Identity] is an interface; a value of it is told apart by
    its dynamic type.  The two types the AKS provider knows have their own
    constructor, every other dynamic type is [otherIdentity]. *)
Inductive Identity : Type :=
| OIDCIdentity (id : oidc.Identity)
| AuthorizerIdentity (id : azid.AuthorizerIdentity)
| otherIdentity (dynamicType : string) (idProviderName : string).

(** [id.IdentityProviderName()] *)
Definition IdentityProviderName (id : Identity) : string :=
  match id with
  | OIDCIdentity i => oidc.idProviderName i
  | AuthorizerIdentity i => azid.idProviderName i
  | otherIdentity _ n => n
  end.
End identity.

(** ** Collaborators held by handle: the logger and the HTTP client *)

Module zap.
(** [zap.SugaredLogger] *)
Record SugaredLogger : Type := mkSugaredLogger { loggerName : string }.
End zap.

Module khttp.
(** [khttp.Client] *)
Record Client : Type := mkClient { clientName : string }.
End khttp.

(** ** package azure: the AKS cluster provider *)

Module azure.

Definition ProviderName : string := "aks".

(** Modelled from the spec: the names of the configuration items, declared
    in a file of the package that is not among the sources; the
    configuration item table gives them. *)
Definition SubscriptionIDConfigItem : string := "subscription-id".
Definition SubscriptionNameConfigItem : string := "subscription-name".
Definition ResourceGroupConfigItem : string := "resource-group".
Definition AdminConfigItem : string := "admin".
Definition ClusterNameConfigItem : string := "cluster-name".

(** [ConfigurationItems]: the five declarations and the short alias, each
    result ignored as the [nolint: errcheck] marks say. *)
Definition ConfigurationItems (scopeTo : string)
  : config.ConfigurationSet * option error :=
  let cs := config.NewConfigurationSet in
  let cs := snd (config.String_ SubscriptionIDConfigItem ""
                   "The Azure subscription to use (specified by ID)" cs) in
  let cs := snd (config.String_ SubscriptionNameConfigItem ""
                   "The Azure subscription to use (specified by name)" cs) in
  let cs := snd (config.String_ ResourceGroupConfigItem ""
                   "The Azure resource group to use" cs) in
  let cs := snd (config.Bool_ AdminConfigItem false
                   "Generate admin user kubeconfig" cs) in
  let cs := snd (config.String_ ClusterNameConfigItem ""
                   "The name of the AKS cluster" cs) in
  let cs := snd (config.SetShort ResourceGroupConfigItem "r" cs) in
  (cs, None).

(** [provider.PluginCreationInput]: the fields [New] reads. *)
Record PluginCreationInput : Type := mkPluginCreationInput {
  Logger : zap.SugaredLogger;
  IsInteractice : bool;
  HTTPClient : option khttp.Client
}.

(** A line written through [p.logger]. *)
Inductive LogEntry : Type :=
| Debugw (msg : string).

Section Provider.

(** Declared elsewhere in the repository: the embedded
    [common.ClusterProviderConfig] with its zero value, the sentinel
    errors, and [config.Unmarshall], which fills the structure it is
    given from a configuration set. *)
Variable ClusterProviderConfig : Type.
Variable zeroClusterProviderConfig : ClusterProviderConfig.
Variable ErrHTTPClientRequired : error.
Variable ErrUnsupportedIdentity : error.

Record aksClusterProviderConfig : Type := mkConfig {
  embedded : ClusterProviderConfig;
  SubscriptionID : option string;
  SubscriptionName : option string;
  ResourceGroup : option string;
  Admin : bool;
  ClusterName : string
}.

(** [&aksClusterProviderConfig{}] *)
Definition zeroConfig : aksClusterProviderConfig :=
  mkConfig zeroClusterProviderConfig None None None false "".

Variable Unmarshall :
  config.ConfigurationSet -> aksClusterProviderConfig ->
  option error * aksClusterProviderConfig.

Record aksClusterProvider : Type := mkProvider {
  config : option aksClusterProviderConfig;
  authorizer : option autorest.Authorizer;
  httpClient : option khttp.Client;
  interactive : bool;
  logger : zap.SugaredLogger
}.

Definition set_config (cfg : option aksClusterProviderConfig)
    (p : aksClusterProvider) : aksClusterProvider :=
  mkProvider cfg (authorizer p) (httpClient p) (interactive p) (logger p).

Definition set_authorizer (a : option autorest.Authorizer)
    (p : aksClusterProvider) : aksClusterProvider :=
  mkProvider (config p) a (httpClient p) (interactive p) (logger p).

(** [New] *)
Definition New (input : PluginCreationInput)
  : option aksClusterProvider * option error :=
  match HTTPClient input with
  | None => (None, Some ErrHTTPClientRequired)
  | Some c =>
      (Some (mkProvider None None (Some c) (IsInteractice input) (Logger input)),
       None)
  end.

(** [p.Name()] *)
Definition Name (p : aksClusterProvider) : string := ProviderName.

(** [p.setup(cs, userID)]: the error returned, the provider as the call
    leaves it, and the lines it logged. *)
Definition setup (cs : config.ConfigurationSet) (userID : identity.Identity)
    (p : aksClusterProvider)
  : option error * aksClusterProvider * list LogEntry :=
  let '(err, cfg) := Unmarshall cs zeroConfig in
  match err with
  | Some err =>
      (Some (fmt_Errorf_w
               "unmarshalling config items into eksClusteProviderConfig: " err),
       p, [])
  | None =>
      let p := set_config (Some cfg) p in
      match userID with
      | identity.OIDCIdentity id =>
          let bearerAuth := autorest.NewBearerAuthorizer id in
          (None, set_authorizer (Some bearerAuth) p,
           [Debugw "creating bearer authorizer"])
      | identity.AuthorizerIdentity id =>
          (None, set_authorizer (azid.Authorizer id) p, [])
      | identity.otherIdentity _ _ =>
          (Some ErrUnsupportedIdentity, p, [])
      end
  end.

(** [p.ListPreReqs()], [p.CheckPreReqs()] *)
Definition ListPreReqs (p : aksClusterProvider) : list string := [].
Definition CheckPreReqs (p : aksClusterProvider) : option error := None.

End Provider.

End azure.

(** ** aws-sdk-go, service/eks: the shapes the EKS provider reads *)

Module eks.

Record Certificate : Type := mkCertificate { Data : option string }.

Record Cluster : Type := mkCluster {
  Arn : option string;
  Name : option string;
  Endpoint : option string;
  CertificateAuthority : option Certificate
}.

Record DescribeClusterInput : Type := mkDescribeClusterInput {
  Name_ : option string
}.

Record DescribeClusterOutput : Type := mkDescribeClusterOutput {
  Cluster_ : option Cluster
}.

Inductive ListClustersInput : Type := mkListClustersInput.

Record ListClustersOutput : Type := mkListClustersOutput {
  Clusters : list (option string)
}.

End eks.

(** ** pkg/provider/discovery: the provider contract *)

Module discovery.

Record Cluster : Type := mkCluster {
  ID : string;
  Name : string;
  ControlPlaneEndpoint : option string;
  CertificateAuthorityData : option string
}.

Record DiscoverInput : Type := mkDiscoverInput {
  ConfigSet : config.ConfigurationSet;
  Identity : identity.Identity
}.

Record DiscoverOutput : Type := mkDiscoverOutput {
  DiscoveryProvider : string;
  IdentityProvider : string;
  Clusters : gmap string Cluster
}.

(** [discoverOutput.Clusters[id] = cluster] *)
Definition setCluster (id : string) (cluster : Cluster) (o : DiscoverOutput)
  : DiscoverOutput :=
  mkDiscoverOutput (DiscoveryProvider o) (IdentityProvider o)
                   (<[id := cluster]> (Clusters o)).

(** The map after [discoverOutput.Clusters[c.ID] = c] for each cluster of a
    list, in order. *)
Definition insertAll (m : gmap string Cluster) (cs : list Cluster)
  : gmap string Cluster :=
  foldl (fun m c => <[ID c := c]> m) m cs.

End discovery.

(** ** package aws: the EKS cluster provider *)

Module aws.

Section Provider.

(** The state of everything outside the process: the EKS service and
    whatever else the calls of a run can reach or change. *)
Variable W : Type.

(** [context.Context], through the one thing a callee can ask it:
    [ctx.Err()], nil while the context is live and [context.Canceled]
    or [context.DeadlineExceeded] once it is done.  Whether it is done
    depends on the moment, that is on the state of the world. *)
Definition Context : Type := W -> option error.

(** [eksiface.EKSAPI]: the two operations the provider calls.  A call
    reads and changes the world.  [listClustersPages] gives the pages the
    service hands out before the enumeration ends or fails. *)
Record EKSAPI : Type := mkEKSAPI {
  listClustersPages :
    eks.ListClustersInput -> W ->
    (list eks.ListClustersOutput * option error) * W;
  describeCluster :
    eks.DescribeClusterInput -> W ->
    (option eks.DescribeClusterOutput * option error) * W
}.

(** [eksClusterProvider]: the fields [Discover] uses. *)
Record eksClusterProvider : Type := mkProvider {
  logger : zap.SugaredLogger;
  eksClient : EKSAPI
}.

(** What a run can change: the provider behind [p] and the world. *)
Record State : Type := mkState {
  provider : eksClusterProvider;
  world : W
}.

(** What a run does that can be seen from outside, in order: the call of
    [p.setup] with what it returned, the lines logged, and the calls of
    the EKS client with what they returned. *)
Inductive Event : Type :=
| EvSetup (cs : config.ConfigurationSet) (userID : identity.Identity)
          (r : Outcome (option error))
| EvInfo (msg : string)
| EvListClustersPages (input : eks.ListClustersInput)
                      (pages : list eks.ListClustersOutput)
                      (err : option error)
| EvDescribeCluster (input : eks.DescribeClusterInput)
                    (output : option eks.DescribeClusterOutput)
                    (err : option error).

(** A computation: from a state to how it ends, the state it leaves and
    the events it produced. *)
Definition M (A : Type) : Type := State -> Outcome A * State * list Event.

Definition ret {A} (a : A) : M A := fun s => (Returned a, s, []).

Definition bind {A B} (m : M A) (k : A -> M B) : M B := fun s =>
  match m s with
  | (Returned a, s1, t1) =>
      let '(r, s2, t2) := k a s1 in (r, s2, t1 ++ t2)
  | (Panicked msg, s1, t1) => (Panicked msg, s1, t1)
  end.

Definition panic {A} (msg : string) : M A := fun s => (Panicked msg, s, []).

#[local] Instance M_ret : MRet M := @ret.
#[local] Instance M_bind : MBind M := fun A B k m => bind m k.

(** [*ptr] *)
Definition deref {A} (ptr : option A) : M A :=
  match ptr with
  | Some a => ret a
  | None => panic nilDereference
  end.

(** [p.logger.Info(msg)] *)
Definition logger_Info (msg : string) : M unit :=
  fun s => (Returned tt, s, [EvInfo msg]).

(** Declared elsewhere in the package: the provider's name, and
    [p.setup], which may change the provider and the world. *)
Variable ProviderName : string.
Variable setup :
  config.ConfigurationSet -> identity.Identity -> State ->
  Outcome (option error) * State.

(** [p.setup(cs, userID)] as a step of a run *)
Definition p_setup (cs : config.ConfigurationSet) (userID : identity.Identity)
  : M (option error) :=
  fun s => let '(r, s1) := setup cs userID s in (r, s1, [EvSetup cs userID r]).

(** The SDK's paginator: [fn] is called on each page in turn, with the
    flag of the last page, until it answers false.  [L] is what the
    closure captured. *)
Fixpoint eachPage {L} (fn : eks.ListClustersOutput -> bool -> L -> bool * L)
    (pages : list eks.ListClustersOutput) (l : L) : L :=
  match pages with
  | [] => l
  | page :: rest =>
      let '(more, l1) := fn page (match rest with [] => true | _ => false end) l in
      if more then eachPage fn rest l1 else l1
  end.

(** [p.eksClient.ListClustersPages(input, fn)] *)
Definition ListClustersPages {L} (input : eks.ListClustersInput)
    (fn : eks.ListClustersOutput -> bool -> L -> bool * L) (l : L)
  : M (L * option error) :=
  fun s =>
    let '(pages, err, w1) :=
      listClustersPages (eksClient (provider s)) input (world s) in
    (Returned (eachPage fn pages l, err),
     mkState (provider s) w1,
     [EvListClustersPages input pages err]).

(** [p.eksClient.DescribeCluster(input)] *)
Definition DescribeCluster (input : eks.DescribeClusterInput)
  : M (option eks.DescribeClusterOutput * option error) :=
  fun s =>
    let '(output, err, w1) :=
      describeCluster (eksClient (provider s)) input (world s) in
    (Returned (output, err),
     mkState (provider s) w1,
     [EvDescribeCluster input output err]).

(** [p.listClusters()]; a nil slice is the empty list. *)
Definition listClusters : M (list (option string) * option error) :=
  let input := eks.mkListClustersInput in
  let clusters : list (option string) := [] in
  '(clusters, err) ← ListClustersPages input
      (fun page lastPage clusters => (true, clusters ++ eks.Clusters page))
      clusters;
  match err with
  | Some err => mret ([], Some (fmt_Errorf_w "listing clusters: " err))
  | None => mret (clusters, None)
  end.

(** [p.getClusterConfig(clusterName)] *)
Definition getClusterConfig (clusterName : string)
  : M (option discovery.Cluster * option error) :=
  let input := eks.mkDescribeClusterInput (Some clusterName) in
  '(output, err) ← DescribeCluster input;
  match err with
  | Some err =>
      mret (None, Some (fmt_Errorf_w
                          ("describing cluster " +:+ clusterName +:+ ": ") err))
  | None =>
      output ← deref output;
      cluster ← deref (eks.Cluster_ output);
      arn ← deref (eks.Arn cluster);
      name ← deref (eks.Name cluster);
      certificateAuthority ← deref (eks.CertificateAuthority cluster);
      mret (Some (discovery.mkCluster arn name (eks.Endpoint cluster)
                    (eks.Data certificateAuthority)),
            None)
  end.

(** The [for _, clusterName := range clusters] loop of [Discover]. *)
Fixpoint describeEach (clusters : list (option string))
    (discoverOutput : discovery.DiscoverOutput)
  : M (option discovery.DiscoverOutput * option error) :=
  match clusters with
  | [] => mret (Some discoverOutput, None)
  | clusterName :: rest =>
      clusterName ← deref clusterName;
      '(clusterDetail, err) ← getClusterConfig clusterName;
      match err with
      | Some err =>
          mret (None, Some (fmt_Errorf_w "getting cluster config: " err))
      | None =>
          clusterDetail ← deref clusterDetail;
          describeEach rest
            (discovery.setCluster (discovery.ID clusterDetail) clusterDetail
                                  discoverOutput)
      end
  end.

(** [p.Discover(ctx, input)] *)
Definition Discover (ctx : Context) (input : discovery.DiscoverInput)
  : M (option discovery.DiscoverOutput * option error) :=
  err ← p_setup (discovery.ConfigSet input) (discovery.Identity input);
  match err with
  | Some err => mret (None, Some (fmt_Errorf_w "setting up eks provider: " err))
  | None =>
      logger_Info "discovering EKS clusters";;
      '(clusters, err) ← listClusters;
      match err with
      | Some err => mret (None, Some (fmt_Errorf_w "listing clusters: " err))
      | None =>
          let discoverOutput :=
            discovery.mkDiscoverOutput ProviderName "aws" ∅ in
          if Nat.eqb (length clusters) 0 then
            logger_Info "no EKS clusters discovered";;
            mret (Some discoverOutput, None)
          else
            describeEach clusters discoverOutput
      end
  end.

(** [p.Discover(ctx, input)] from the caller's side.  [input] is a pointer,
    and its first use, [input.ConfigSet] in the arguments of the call of
    [p.setup], dereferences it: on a nil [input] the call panics there,
    before [p.setup] is called. *)
Definition Discover_ptr (ctx : Context) (input : option discovery.DiscoverInput)
  : M (option discovery.DiscoverOutput * option error) :=
  input ← deref input;
  Discover ctx input.

(** Reading a run back from its events. *)

(** The cluster names a list call handed out, page after page. *)
Definition listed (pages : list eks.ListClustersOutput) : list (option string) :=
  concat (map eks.Clusters pages).

(** The cluster record [getClusterConfig] builds from a describe output,
    when no pointer on the way to its fields is nil. *)
Definition clusterOf (output : option eks.DescribeClusterOutput)
  : option discovery.Cluster :=
  match output with
  | Some (eks.mkDescribeClusterOutput
            (Some (eks.mkCluster (Some arn) (Some name) endpoint
                                 (Some (eks.mkCertificate data))))) =>
      Some (discovery.mkCluster arn name endpoint data)
  | _ => None
  end.

(** The clusters the describe calls of a run returned, in call order. *)
Fixpoint described (t : list Event) : list discovery.Cluster :=
  match t with
  | [] => []
  | EvDescribeCluster _ output None :: t' =>
      match clusterOf output with
      | Some c => c :: described t'
      | None => described t'
      end
  | _ :: t' => described t'
  end.

(** The names the describe calls of a run asked for, in call order. *)
Fixpoint describeCalls (t : list Event) : list (option string) :=
  match t with
  | [] => []
  | EvDescribeCluster input _ _ :: t' => eks.Name_ input :: describeCalls t'
  | _ :: t' => describeCalls t'
  end.

(** The errors [p.setup] and the EKS client returned during a run. *)
Fixpoint returnedErrors (t : list Event) : list error :=
  match t with
  | [] => []
  | EvSetup _ _ (Returned (Some e)) :: t' => e :: returnedErrors t'
  | EvListClustersPages _ _ (Some e) :: t' => e :: returnedErrors t'
  | EvDescribeCluster _ _ (Some e) :: t' => e :: returnedErrors t'
  | _ :: t' => returnedErrors t'
  end.

Definition isDescribe (ev : Event) : Prop :=
  match ev with EvDescribeCluster _ _ _ => True | _ => False end.

(** The three parts of a finished run. *)
Definition result {A} (run : Outcome A * State * list Event) : Outcome A :=
  run.1.1.
Definition final {A} (run : Outcome A * State * list Event) : State :=
  run.1.2.
Definition trace {A} (run : Outcome A * State * list Event) : list Event :=
  run.2.

End Provider.

Arguments mkState {W} provider world.
Arguments mkProvider {W} logger eksClient.
Arguments mkEKSAPI {W} listClustersPages describeCluster.
Arguments provider {W} s.
Arguments world {W} s.
Arguments eksClient {W} e.
Arguments logger {W} e.
Arguments listClustersPages {W} e input w.
Arguments describeCluster {W} e input w.
Arguments result {W A} run.
Arguments final {W A} run.
Arguments trace {W A} run.

End aws.

(** ** Test doubles: a scripted EKS service and stand-ins for the parts of
    the repository the providers are linked with *)

Module fixture.

(** A scripted EKS service.  The world counts the calls served. *)
Definition service (pages : list (list string)) (listErr : option error)
    (describe : string -> option eks.DescribeClusterOutput * option error)
  : aws.EKSAPI nat :=
  aws.mkEKSAPI
    (fun _ w => (map (fun names => eks.mkListClustersOutput (map Some names)) pages,
                 listErr, S w))
    (fun input w => (describe (default "" (eks.Name_ input)), S w)).

(** A describe output with every field present. *)
Definition cluster (arn name : string)
  : option eks.DescribeClusterOutput * option error :=
  (Some (eks.mkDescribeClusterOutput
           (Some (eks.mkCluster (Some arn) (Some name)
                    (Some ("https://" +:+ name +:+ ".eks.amazonaws.com"))
                    (Some (eks.mkCertificate (Some "LS0tLS1CRUdJTg==")))))),
   None).

Definition accessDenied : error := errors_New "AccessDeniedException".

(** Each cluster under its own ARN. *)
Definition describeAll (name : string) :=
  cluster ("arn:aws:eks:eu-west-1:1:cluster/" +:+ name) name.

(** As [describeAll], but the call for cluster b fails. *)
Definition describeFailingB (name : string) :=
  if String.eqb name "b" then (None, Some accessDenied) else describeAll name.

(** Every cluster under one and the same ARN. *)
Definition describeSameArn (name : string) :=
  cluster "arn:aws:eks:eu-west-1:1:cluster/shared" name.

Definition ErrUnsupportedIdentity : error :=
  errors_New "unsupported identity".

(** A stand-in for the EKS provider's [setup]: it takes an AWS identity
    and refuses the others; it leaves provider and world alone. *)
Definition setup (cs : config.ConfigurationSet) (userID : identity.Identity)
    (s : aws.State nat) : Outcome (option error) * aws.State nat :=
  match userID with
  | identity.otherIdentity "*aws.Identity" _ => (Returned None, s)
  | _ => (Returned (Some ErrUnsupportedIdentity), s)
  end.

Definition awsIdentity : identity.Identity :=
  identity.otherIdentity "*aws.Identity" "aws-iam".
Definition oidcIdentity : identity.Identity :=
  identity.OIDCIdentity (oidc.mkIdentity "eyJhbGciOi" "aad").

Definition input (userID : identity.Identity) : discovery.DiscoverInput :=
  discovery.mkDiscoverInput config.NewConfigurationSet userID.

Definition start (client : aws.EKSAPI nat) : aws.State nat :=
  aws.mkState (aws.mkProvider (zap.mkSugaredLogger "kconnect") client) 0.

(** A context that is live until the first call of the service has been
    served, and cancelled from then on. *)
Definition cancelledAfterFirstCall : aws.Context nat :=
  fun w => if Nat.ltb 0 w then Some context_Canceled else None.

Definition background : aws.Context nat := fun _ => None.

(** [Discover] of the EKS provider linked with the stand-in [setup]. *)
Definition Discover := aws.Discover nat "eks" setup.

(** A stand-in for [config.Unmarshall] into the AKS configuration: it
    reads the default of the cluster-name item and fails when the set
    does not declare it. *)
Definition Unmarshall (cs : config.ConfigurationSet)
    (cfg : azure.aksClusterProviderConfig unit)
  : option error * azure.aksClusterProviderConfig unit :=
  match config.Get azure.ClusterNameConfigItem cs with
  | Some (config.mkItem _ _ (config.StringValue v) _ _) =>
      (None, azure.mkConfig unit (azure.embedded unit cfg)
               (azure.SubscriptionID unit cfg) (azure.SubscriptionName unit cfg)
               (azure.ResourceGroup unit cfg) (azure.Admin unit cfg) v)
  | _ => (Some (errors_New "no cluster-name item"), cfg)
  end.

Definition aksSetup :=
  azure.setup unit tt ErrUnsupportedIdentity Unmarshall.

Definition aksProvider : azure.aksClusterProvider unit :=
  azure.mkProvider unit None (Some (autorest.otherAuthorizer "previous"))
    (Some (khttp.mkClient "default")) false (zap.mkSugaredLogger "kconnect").

Definition aksItems : config.ConfigurationSet :=
  (azure.ConfigurationItems "").1.

(** A cluster that is still being created: no endpoint and no certificate
    authority yet. *)
Definition describeCreating (name : string)
  : option eks.DescribeClusterOutput * option error :=
  (Some (eks.mkDescribeClusterOutput
           (Some (eks.mkCluster (Some ("arn:aws:eks:eu-west-1:1:cluster/" +:+ name))
                    (Some name) None None))),
   None).

(** Scripted runs, by the state they start from. *)

(** Three clusters on two pages. *)
Definition twoPages : aws.State nat :=
  start (service [["a"]; ["b"; "c"]] None describeAll).

(** The enumeration fails after two pages. *)
Definition listFails : aws.State nat :=
  start (service [["a"]; ["b"]] (Some accessDenied) describeAll).

(** Clusters a and b; the describe call for b fails. *)
Definition describeFails : aws.State nat :=
  start (service [["a"; "b"]] None describeFailingB).

(** Clusters a and b, described under one ARN. *)
Definition sharedArn : aws.State nat :=
  start (service [["a"; "b"]] None describeSameArn).

(** Cluster a is still being created. *)
Definition creating : aws.State nat :=
  start (service [["a"]] None describeCreating).

End fixture.

(** * Properties *)

(** ** Errors and messages *)

Lemma Error_fmt_Errorf_w prefix err :
  Error (fmt_Errorf_w prefix err) = prefix +:+ Error err.
Proof. reflexivity. Qed.

Lemma Unwrap_fmt_Errorf_w prefix err :
  Unwrap (fmt_Errorf_w prefix err) = Some err.
Proof. reflexivity. Qed.

Lemma chain_fmt_Errorf_w prefix err :
  chain (fmt_Errorf_w prefix err) = fmt_Errorf_w prefix err :: chain err.
Proof. reflexivity. Qed.

Lemma chain_self e : e ∈ chain e.
Proof. destruct e; simpl; left. Qed.

Lemma length_append_string (s1 s2 : string) :
  String.length (s1 +:+ s2) = String.length s1 + String.length s2.
Proof. induction s1 as [|c s1 IH]; simpl; [reflexivity | now rewrite IH]. Qed.

(** A message cannot name a string longer than itself. *)
Lemma mentions_length msg name :
  mentions msg name -> String.length name <= String.length msg.
Proof.
  intros (before & after & ->).
  rewrite !length_append_string. lia.
Qed.

(** ** The AKS provider *)

Section AKS.

Variable ClusterProviderConfig : Type.
Variable zeroClusterProviderConfig : ClusterProviderConfig.
Variable ErrHTTPClientRequired : error.
Variable ErrUnsupportedIdentity : error.
Variable Unmarshall :
  config.ConfigurationSet ->
  azure.aksClusterProviderConfig ClusterProviderConfig ->
  option error * azure.aksClusterProviderConfig ClusterProviderConfig.

#[local] Abbreviation zeroConfig :=
  (azure.zeroConfig ClusterProviderConfig zeroClusterProviderConfig).
#[local] Abbreviation setup :=
  (azure.setup ClusterProviderConfig zeroClusterProviderConfig
               ErrUnsupportedIdentity Unmarshall).
#[local] Abbreviation New := (azure.New ClusterProviderConfig ErrHTTPClientRequired).
#[local] Abbreviation config_of := (azure.config ClusterProviderConfig).
#[local] Abbreviation authorizer_of := (azure.authorizer ClusterProviderConfig).
#[local] Abbreviation httpClient_of := (azure.httpClient ClusterProviderConfig).
#[local] Abbreviation interactive_of := (azure.interactive ClusterProviderConfig).
#[local] Abbreviation logger_of := (azure.logger ClusterProviderConfig).

(** When the configuration does not unmarshal, [setup] stops there: the
    provider is left as it was and nothing is logged. *)
Lemma setup_unmarshall_error cs userID p err cfg :
  Unmarshall cs zeroConfig = (Some err, cfg) ->
  setup cs userID p =
    (Some (fmt_Errorf_w
             "unmarshalling config items into eksClusteProviderConfig: " err),
     p, []).
Proof. intros H. unfold azure.setup. now rewrite H. Qed.

(** Whatever the identity, [setup] leaves the provider's HTTP client, its
    interactive flag and its logger alone. *)
Lemma setup_frame cs userID p :
  httpClient_of (setup cs userID p).1.2 = httpClient_of p /\
  interactive_of (setup cs userID p).1.2 = interactive_of p /\
  logger_of (setup cs userID p).1.2 = logger_of p.
Proof.
  unfold azure.setup.
  destruct (Unmarshall cs zeroConfig) as [[err|] cfg]; [easy|].
  destruct userID; easy.
Qed.

(** C2.  Once the configuration is bound, the dispatch on the identity is:
    an OIDC identity gives a bearer authorizer around that identity, an
    authorizer identity gives the authorizer it carries, unchanged, and
    any other identity makes [setup] fail with [ErrUnsupportedIdentity]. *)
Theorem setup_identity_dispatch cs userID p cfg :
  Unmarshall cs zeroConfig = (None, cfg) ->
  match userID with
  | identity.OIDCIdentity id =>
      (setup cs userID p).1.1 = None /\
      authorizer_of (setup cs userID p).1.2
        = Some (autorest.NewBearerAuthorizer id)
  | identity.AuthorizerIdentity id =>
      (setup cs userID p).1.1 = None /\
      authorizer_of (setup cs userID p).1.2 = azid.authorizer id
  | identity.otherIdentity _ _ =>
      (setup cs userID p).1.1 = Some ErrUnsupportedIdentity
  end.
Proof.
  intros H. unfold azure.setup. rewrite H.
  destruct userID; simpl; auto.
Qed.

(** C6, as the code has it.  For an identity of an unsupported type the
    dispatch returns the fixed [ErrUnsupportedIdentity] value: the error
    is the same whatever the identity and its identity provider are. *)
Theorem setup_unsupported_identity_fixed_error
    cs p cfg dynamicType idProviderName dynamicType' idProviderName' :
  Unmarshall cs zeroConfig = (None, cfg) ->
  (setup cs (identity.otherIdentity dynamicType idProviderName) p).1.1
    = Some ErrUnsupportedIdentity /\
  (setup cs (identity.otherIdentity dynamicType' idProviderName') p).1.1
    = (setup cs (identity.otherIdentity dynamicType idProviderName) p).1.1.
Proof.
  intros H. unfold azure.setup. rewrite H. simpl. auto.
Qed.

(** C9.  [New] fails with [ErrHTTPClientRequired] and returns no provider
    when the input has no HTTP client; with a client it returns a provider
    that holds the input's client, logger and interactive flag, and has
    neither configuration nor authorizer yet. *)
Theorem New_requires_http_client input :
  match azure.HTTPClient input with
  | None => New input = (None, Some ErrHTTPClientRequired)
  | Some client =>
      New input =
        (Some (azure.mkProvider ClusterProviderConfig None None (Some client)
                 (azure.IsInteractice input) (azure.Logger input)),
         None)
  end.
Proof. unfold azure.New. destruct (azure.HTTPClient input); reflexivity. Qed.

(** C10.  [setup] is not atomic: when the configuration unmarshals and the
    identity is of an unsupported type, [setup] returns an error and the
    provider already holds the new configuration, while its authorizer is
    the one it had. *)
Theorem setup_keeps_config_on_dispatch_failure
    cs dynamicType idProviderName p cfg :
  Unmarshall cs zeroConfig = (None, cfg) ->
  (setup cs (identity.otherIdentity dynamicType idProviderName) p).1.1
    = Some ErrUnsupportedIdentity /\
  config_of (setup cs (identity.otherIdentity dynamicType idProviderName) p).1.2
    = Some cfg /\
  authorizer_of (setup cs (identity.otherIdentity dynamicType idProviderName) p).1.2
    = authorizer_of p.
Proof.
  intros H. unfold azure.setup. rewrite H. simpl. auto.
Qed.

End AKS.

(** C8.  For every scope, [ConfigurationItems] succeeds and declares five
    items, in this order: subscription-id, subscription-name and
    resource-group (strings, default empty), admin (boolean, default false)
    and cluster-name (string, default empty); resource-group has the short
    alias r and no other item has one. *)
Theorem ConfigurationItems_five_items scopeTo :
  azure.ConfigurationItems scopeTo =
    ([ config.mkItem "subscription-id" config.ItemTypeString (config.StringValue "")
         "The Azure subscription to use (specified by ID)" None;
       config.mkItem "subscription-name" config.ItemTypeString (config.StringValue "")
         "The Azure subscription to use (specified by name)" None;
       config.mkItem "resource-group" config.ItemTypeString (config.StringValue "")
         "The Azure resource group to use" (Some "r");
       config.mkItem "admin" config.ItemTypeBool (config.BoolValue false)
         "Generate admin user kubeconfig" None;
       config.mkItem "cluster-name" config.ItemTypeString (config.StringValue "")
         "The name of the AKS cluster" None ],
     None).
Proof. reflexivity. Qed.

(** An instance of [setup_identity_dispatch]: the bearer authorizer
    replaces the one the provider held. *)
Lemma setup_identity_dispatch_witness :
  fixture.Unmarshall fixture.aksItems (azure.zeroConfig unit tt)
    = (None, azure.zeroConfig unit tt) /\
  (fixture.aksSetup fixture.aksItems fixture.oidcIdentity fixture.aksProvider).1.1
    = None /\
  azure.authorizer unit
    (fixture.aksSetup fixture.aksItems fixture.oidcIdentity fixture.aksProvider).1.2
    = Some (autorest.NewBearerAuthorizer (oidc.mkIdentity "eyJhbGciOi" "aad")).
Proof.
  split; [reflexivity|].
  apply (setup_identity_dispatch unit tt fixture.ErrUnsupportedIdentity
           fixture.Unmarshall fixture.aksItems fixture.oidcIdentity
           fixture.aksProvider (azure.zeroConfig unit tt)).
  reflexivity.
Defined.

(** An instance of [setup_unsupported_identity_fixed_error]: an AWS and a
    SAML identity are refused with the same error. *)
Lemma setup_unsupported_identity_fixed_error_witness :
  fixture.Unmarshall fixture.aksItems (azure.zeroConfig unit tt)
    = (None, azure.zeroConfig unit tt) /\
  (fixture.aksSetup fixture.aksItems fixture.awsIdentity fixture.aksProvider).1.1
    = Some fixture.ErrUnsupportedIdentity /\
  (fixture.aksSetup fixture.aksItems (identity.otherIdentity "*saml.Identity" "saml")
     fixture.aksProvider).1.1
    = (fixture.aksSetup fixture.aksItems fixture.awsIdentity fixture.aksProvider).1.1.
Proof.
  split; [reflexivity|].
  apply (setup_unsupported_identity_fixed_error unit tt
           fixture.ErrUnsupportedIdentity fixture.Unmarshall fixture.aksItems
           fixture.aksProvider (azure.zeroConfig unit tt)).
  reflexivity.
Defined.

(** The error of the dispatch cannot name the identity provider of every
    unsupported identity, whatever value the package gives
    [ErrUnsupportedIdentity]: the error is that one value, and an identity
    provider may have a name longer than its message. *)
Lemma setup_unsupported_error_names_identity_provider_counterexample :
  ~ (exists ErrUnsupportedIdentity : error,
       forall dynamicType idProviderName,
       exists e,
         (azure.setup unit tt ErrUnsupportedIdentity fixture.Unmarshall
            fixture.aksItems (identity.otherIdentity dynamicType idProviderName)
            fixture.aksProvider).1.1 = Some e /\
         mentions (Error e) idProviderName /\
         mentions (Error e) azure.ProviderName).
Proof.
  intros (E & H).
  destruct (H "*aws.Identity" (Error E +:+ "!")) as (e & He & Hidp & _).
  injection He as <-.
  apply mentions_length in Hidp.
  rewrite length_append_string in Hidp. simpl in Hidp. lia.
Qed.

(** An instance of [setup_keeps_config_on_dispatch_failure]: the provider
    keeps its previous authorizer and has the new configuration. *)
Lemma setup_keeps_config_on_dispatch_failure_witness :
  fixture.Unmarshall fixture.aksItems (azure.zeroConfig unit tt)
    = (None, azure.zeroConfig unit tt) /\
  (fixture.aksSetup fixture.aksItems fixture.awsIdentity fixture.aksProvider).1.1
    = Some fixture.ErrUnsupportedIdentity /\
  azure.config unit
    (fixture.aksSetup fixture.aksItems fixture.awsIdentity fixture.aksProvider).1.2
    = Some (azure.zeroConfig unit tt) /\
  azure.authorizer unit
    (fixture.aksSetup fixture.aksItems fixture.awsIdentity fixture.aksProvider).1.2
    = Some (autorest.otherAuthorizer "previous").
Proof.
  split; [reflexivity|].
  apply (setup_keeps_config_on_dispatch_failure unit tt
           fixture.ErrUnsupportedIdentity fixture.Unmarshall fixture.aksItems
           "*aws.Identity" "aws-iam" fixture.aksProvider (azure.zeroConfig unit tt)).
  reflexivity.
Defined.

(** ** The EKS provider *)

Section EKS.

Variable W : Type.
Variable ProviderName : string.
Variable setup :
  config.ConfigurationSet -> identity.Identity -> aws.State W ->
  Outcome (option error) * aws.State W.

#[local] Abbreviation Discover := (aws.Discover W ProviderName setup).
#[local] Abbreviation describeEach := (aws.describeEach W).
#[local] Abbreviation getClusterConfig := (aws.getClusterConfig W).
#[local] Abbreviation emptyOutput :=
  (discovery.mkDiscoverOutput ProviderName "aws" ∅).

Ltac unfold_run :=
  unfold aws.getClusterConfig, aws.listClusters, aws.ListClustersPages,
    aws.DescribeCluster, aws.p_setup, aws.logger_Info, aws.deref, aws.panic,
    mbind, mret, aws.M_bind, aws.M_ret, aws.bind, aws.ret.

(** *** One step at a time *)

(** The paginator with the closure of [listClusters] appends every page. *)
Lemma eachPage_append pages (clusters : list (option string)) :
  aws.eachPage
    (fun page (lastPage : bool) clusters => (true, clusters ++ eks.Clusters page))
    pages clusters
  = clusters ++ aws.listed pages.
Proof.
  revert clusters. induction pages as [|page rest IH]; intros clusters; simpl.
  - now rewrite app_nil_r.
  - rewrite IH. unfold aws.listed. simpl. now rewrite app_assoc.
Qed.

(** [listClusters] makes one call of the client. *)
Lemma listClusters_run s :
  aws.listClusters W s =
    let '(pages, err, w1) :=
      aws.listClustersPages (aws.eksClient (aws.provider s))
        eks.mkListClustersInput (aws.world s) in
    (Returned (match err with
               | Some e => ([], Some (fmt_Errorf_w "listing clusters: " e))
               | None => (aws.listed pages, None)
               end),
     aws.mkState (aws.provider s) w1,
     [aws.EvListClustersPages eks.mkListClustersInput pages err]).
Proof.
  unfold_run.
  destruct (aws.listClustersPages _ _ _) as [[pages err] w1].
  rewrite eachPage_append. destruct err; reflexivity.
Qed.

(** [getClusterConfig] makes one call of the client; it fails when the call
    fails, panics when the output lacks a pointer it follows, and otherwise
    returns the cluster read from the output. *)
Lemma getClusterConfig_run clusterName s :
  getClusterConfig clusterName s =
    let input := eks.mkDescribeClusterInput (Some clusterName) in
    let '(output, err, w1) :=
      aws.describeCluster (aws.eksClient (aws.provider s)) input (aws.world s) in
    (match err with
     | Some e =>
         Returned (None, Some (fmt_Errorf_w
                                 ("describing cluster " +:+ clusterName +:+ ": ") e))
     | None =>
         match aws.clusterOf output with
         | Some c => Returned (Some c, None)
         | None => Panicked nilDereference
         end
     end,
     aws.mkState (aws.provider s) w1,
     [aws.EvDescribeCluster input output err]).
Proof.
  unfold_run. cbv zeta.
  destruct (aws.describeCluster _ _ _) as [[output err] w1].
  destruct err as [e|]; [reflexivity|].
  destruct output as [[[[[arn|] [name|] endpoint [[data]|]]|]]|]; reflexivity.
Qed.

(** One turn of the loop. *)
Lemma describeEach_cons clusterName rest out s :
  describeEach (clusterName :: rest) out s =
    match clusterName with
    | None => (Panicked nilDereference, s, [])
    | Some name =>
        let input := eks.mkDescribeClusterInput (Some name) in
        let '(output, err, w1) :=
          aws.describeCluster (aws.eksClient (aws.provider s)) input (aws.world s) in
        let s1 := aws.mkState (aws.provider s) w1 in
        let ev := aws.EvDescribeCluster input output err in
        match err with
        | Some e =>
            (Returned (None,
                       Some (fmt_Errorf_w "getting cluster config: "
                               (fmt_Errorf_w
                                  ("describing cluster " +:+ name +:+ ": ") e))),
             s1, [ev])
        | None =>
            match aws.clusterOf output with
            | None => (Panicked nilDereference, s1, [ev])
            | Some c =>
                let '(r, s2, t) :=
                  describeEach rest (discovery.setCluster (discovery.ID c) c out) s1 in
                (r, s2, ev :: t)
            end
        end
    end.
Proof.
  destruct clusterName as [name|]; [|reflexivity].
  cbn [aws.describeEach].
  unfold mbind at 1, aws.M_bind at 1, aws.bind at 1. cbn [aws.deref].
  unfold mret at 1, aws.M_ret at 1, aws.ret at 1.
  unfold mbind at 1, aws.M_bind at 1, aws.bind at 1.
  rewrite getClusterConfig_run. cbv zeta.
  destruct (aws.describeCluster _ _ _) as [[output err] w1].
  destruct err as [e|]; [reflexivity|].
  destruct (aws.clusterOf output) as [c|]; [|reflexivity].
  unfold_run. cbn.
  destruct (aws.describeEach W rest _ _) as [[r s2] t]. reflexivity.
Qed.

(** [Discover], call by call. *)
Lemma Discover_run ctx input s :
  Discover ctx input s =
    let cs := discovery.ConfigSet input in
    let userID := discovery.Identity input in
    let '(r, s1) := setup cs userID s in
    let t0 := [aws.EvSetup cs userID r] in
    match r with
    | Panicked msg => (Panicked msg, s1, t0)
    | Returned (Some e) =>
        (Returned (None, Some (fmt_Errorf_w "setting up eks provider: " e)), s1, t0)
    | Returned None =>
        let '(pages, err, w1) :=
          aws.listClustersPages (aws.eksClient (aws.provider s1))
            eks.mkListClustersInput (aws.world s1) in
        let s2 := aws.mkState (aws.provider s1) w1 in
        let t1 := t0 ++ [aws.EvInfo "discovering EKS clusters";
                         aws.EvListClustersPages eks.mkListClustersInput pages err] in
        match err with
        | Some e =>
            (Returned (None,
                       Some (fmt_Errorf_w "listing clusters: "
                               (fmt_Errorf_w "listing clusters: " e))),
             s2, t1)
        | None =>
            match aws.listed pages with
            | [] =>
                (Returned (Some emptyOutput, None), s2,
                 t1 ++ [aws.EvInfo "no EKS clusters discovered"])
            | _ :: _ =>
                let '(r3, s3, t3) := describeEach (aws.listed pages) emptyOutput s2 in
                (r3, s3, t1 ++ t3)
            end
        end
    end.
Proof.
  unfold aws.Discover. cbv zeta.
  unfold mbind at 1, aws.M_bind at 1, aws.bind at 1, aws.p_setup.
  destruct (setup _ _ s) as [r s1].
  destruct r as [[e|]|msg]; [reflexivity| |reflexivity].
  unfold mbind at 1, aws.M_bind at 1, aws.bind at 1, aws.logger_Info at 1.
  unfold mbind at 1, aws.M_bind at 1, aws.bind at 1.
  rewrite listClusters_run.
  destruct (aws.listClustersPages _ _ _) as [[pages err] w1].
  destruct err as [e|]; [reflexivity|].
  destruct (aws.listed pages) as [|c l] eqn:El; [reflexivity|].
  cbn [length Nat.eqb].
  destruct (aws.describeEach W (c :: l) _ _) as [[r3 s3] t3]. reflexivity.
Qed.

(** *** What the loop leaves in the trace *)

(** The loop calls nothing but [DescribeCluster]. *)
Lemma describeEach_trace clusters out s :
  Forall aws.isDescribe (aws.trace (describeEach clusters out s)).
Proof.
  revert out s. induction clusters as [|clusterName rest IH]; intros out s.
  - constructor.
  - rewrite describeEach_cons. destruct clusterName as [name|]; [|constructor].
    cbv zeta. destruct (aws.describeCluster _ _ _) as [[output err] w1].
    destruct err as [e|]; [repeat constructor|].
    destruct (aws.clusterOf output) as [c|]; [|repeat constructor].
    specialize (IH (discovery.setCluster (discovery.ID c) c out)
                   (aws.mkState (aws.provider s) w1)).
    destruct (aws.describeEach W rest _ _) as [[r s2] t].
    constructor; [exact I | exact IH].
Qed.

(** Fail-fast: a describe call that fails ends the loop with its error. *)
Lemma describeEach_error clusters out s clusterName output err :
  aws.EvDescribeCluster (eks.mkDescribeClusterInput (Some clusterName)) output
                        (Some err)
    ∈ aws.trace (describeEach clusters out s) ->
  aws.result (describeEach clusters out s) =
    Returned (None,
              Some (fmt_Errorf_w "getting cluster config: "
                      (fmt_Errorf_w
                         ("describing cluster " +:+ clusterName +:+ ": ") err))).
Proof.
  revert out s. induction clusters as [|c rest IH]; intros out s.
  - intros H. inversion H.
  - rewrite describeEach_cons. destruct c as [name|]; [|intros H; inversion H].
    cbv zeta. destruct (aws.describeCluster _ _ _) as [[output' err'] w1].
    destruct err' as [e|].
    + intros H. apply list_elem_of_singleton in H. now inversion H.
    + destruct (aws.clusterOf output') as [cl|].
      * specialize (IH (discovery.setCluster (discovery.ID cl) cl out)
                       (aws.mkState (aws.provider s) w1)).
        destruct (aws.describeEach W rest _ _) as [[r s2] t].
        intros H. apply elem_of_cons in H as [H|H]; [discriminate H|].
        exact (IH H).
      * intros H. apply list_elem_of_singleton in H. discriminate H.
Qed.

(** *** The claims about [Discover] *)

(** The list call of a run is the one [Discover] makes once [setup] has
    returned without error. *)
Lemma Discover_list_event ctx input s i pages err :
  aws.EvListClustersPages i pages err ∈ aws.trace (Discover ctx input s) ->
  exists s1 w1,
    setup (discovery.ConfigSet input) (discovery.Identity input) s
      = (Returned None, s1) /\
    aws.listClustersPages (aws.eksClient (aws.provider s1))
      eks.mkListClustersInput (aws.world s1) = (pages, err, w1).
Proof.
  rewrite Discover_run. cbv zeta.
  destruct (setup _ _ s) as [r s1].
  destruct r as [[e|]|msg];
    [intros H; apply list_elem_of_singleton in H; discriminate H
    | | intros H; apply list_elem_of_singleton in H; discriminate H].
  destruct (aws.listClustersPages _ _ _) as [[pages' err'] w1] eqn:El.
  assert (Hhead : forall t : list aws.Event,
             Forall aws.isDescribe t \/ t = [aws.EvInfo "no EKS clusters discovered"] \/ t = [] ->
             aws.EvListClustersPages i pages err
               ∈ [aws.EvSetup (discovery.ConfigSet input) (discovery.Identity input)
                    (Returned None)]
                 ++ [aws.EvInfo "discovering EKS clusters";
                     aws.EvListClustersPages eks.mkListClustersInput pages' err'] ++ t ->
             pages' = pages /\ err' = err).
  { intros t Ht H. cbn in H.
    apply elem_of_cons in H as [H|H]; [discriminate H|].
    apply elem_of_cons in H as [H|H]; [discriminate H|].
    apply elem_of_cons in H as [H|H]; [now inversion H|].
    destruct Ht as [Ht|[->| ->]].
    - rewrite Forall_forall in Ht. destruct (Ht _ H).
    - apply list_elem_of_singleton in H. discriminate H.
    - inversion H. }
  destruct err' as [e|].
  - intros H.
    destruct (Hhead [] (or_intror (or_intror eq_refl)) H) as [E1 E2].
    subst pages err. eauto.
  - destruct (aws.listed pages') as [|c l] eqn:Hl.
    + intros H.
      destruct (Hhead [aws.EvInfo "no EKS clusters discovered"]
                  (or_intror (or_introl eq_refl)) H) as [E1 E2].
      subst pages err. eauto.
    + pose proof (describeEach_trace (c :: l) emptyOutput
                    (aws.mkState (aws.provider s1) w1)) as Ht.
      destruct (aws.describeEach W (c :: l) _ _) as [[r3 s3] t3].
      intros H. destruct (Hhead t3 (or_introl Ht) H) as [E1 E2].
      subst pages err. eauto.
Qed.

(** C1.  In every run in which a describe call fails, [Discover] returns
    that error, wrapped, and a nil output: the clusters described before the
    failure are not returned. *)
Theorem Discover_fails_fast ctx input s clusterName output err :
  aws.EvDescribeCluster (eks.mkDescribeClusterInput (Some clusterName)) output
                        (Some err)
    ∈ aws.trace (Discover ctx input s) ->
  aws.result (Discover ctx input s) =
    Returned (None,
              Some (fmt_Errorf_w "getting cluster config: "
                      (fmt_Errorf_w
                         ("describing cluster " +:+ clusterName +:+ ": ") err))).
Proof.
  rewrite Discover_run. cbv zeta.
  destruct (setup _ _ s) as [r s1].
  destruct r as [[e|]|msg];
    [intros H; apply list_elem_of_singleton in H; discriminate H
    | | intros H; apply list_elem_of_singleton in H; discriminate H].
  destruct (aws.listClustersPages _ _ _) as [[pages err'] w1].
  destruct err' as [e|].
  - intros H. cbn in H. repeat (apply elem_of_cons in H as [H|H]; [discriminate H|]).
    inversion H.
  - destruct (aws.listed pages) as [|c l].
    + intros H. cbn in H.
      repeat (apply elem_of_cons in H as [H|H]; [discriminate H|]). inversion H.
    + pose proof (describeEach_error (c :: l) emptyOutput
                    (aws.mkState (aws.provider s1) w1) clusterName output err) as HE.
      destruct (aws.describeEach W (c :: l) _ _) as [[r3 s3] t3].
      intros H. cbn in H.
      repeat (apply elem_of_cons in H as [H|H]; [discriminate H|]).
      exact (HE H).
Qed.

(** C4.  In every run in which the list call succeeds and hands out no
    cluster, [Discover] returns no error and an output whose cluster map is
    empty; no describe call is made. *)
Theorem Discover_no_clusters ctx input s pages :
  aws.EvListClustersPages eks.mkListClustersInput pages None
    ∈ aws.trace (Discover ctx input s) ->
  aws.listed pages = [] ->
  aws.result (Discover ctx input s) = Returned (Some emptyOutput, None) /\
  aws.describeCalls (aws.trace (Discover ctx input s)) = [].
Proof.
  intros H Hl.
  destruct (Discover_list_event _ _ _ _ _ _ H) as (s1 & w1 & Hs & Hp).
  rewrite Discover_run. cbv zeta. rewrite Hs, Hp, Hl. split; reflexivity.
Qed.

(** C7.  The first thing a run of [Discover] does is the call of [setup],
    which has returned before anything else happens; and when [setup]
    returns an error, [Discover] returns it, wrapped, with a nil output, and
    the run consists of that call alone: the client is asked neither to list
    nor to describe. *)
Theorem Discover_setup_first ctx input s :
  let cs := discovery.ConfigSet input in
  let userID := discovery.Identity input in
  (exists rest,
      aws.trace (Discover ctx input s)
        = aws.EvSetup cs userID (setup cs userID s).1 :: rest) /\
  (forall err,
      (setup cs userID s).1 = Returned (Some err) ->
      aws.result (Discover ctx input s)
        = Returned (None, Some (fmt_Errorf_w "setting up eks provider: " err)) /\
      aws.trace (Discover ctx input s)
        = [aws.EvSetup cs userID (Returned (Some err))] /\
      aws.final (Discover ctx input s) = (setup cs userID s).2).
Proof.
  cbv zeta. rewrite Discover_run. cbv zeta.
  destruct (setup _ _ s) as [r s1]. cbn [fst snd].
  split.
  - destruct r as [[e|]|msg]; [now eexists | | now eexists].
    destruct (aws.listClustersPages _ _ _) as [[pages err'] w1].
    destruct err' as [e|]; [now eexists|].
    destruct (aws.listed pages) as [|c l]; [now eexists|].
    destruct (aws.describeEach W (c :: l) _ _) as [[r3 s3] t3]. now eexists.
  - intros err ->. repeat split.
Qed.

(** *** The cluster map *)

Lemma insertAll_lookup_other m cs (k : string) :
  k ∉ discovery.ID <$> cs ->
  discovery.insertAll m cs !! k = m !! k.
Proof.
  revert m. induction cs as [|c cs IH]; intros m Hk; [reflexivity|].
  rewrite fmap_cons, not_elem_of_cons in Hk. destruct Hk as [Hne Hk].
  cbn. rewrite IH by assumption. now rewrite lookup_insert_ne.
Qed.

Lemma insertAll_lookup m cs c :
  NoDup (discovery.ID <$> cs) -> c ∈ cs ->
  discovery.insertAll m cs !! discovery.ID c = Some c.
Proof.
  revert m. induction cs as [|a cs IH]; intros m Hnd Hc; [inversion Hc|].
  rewrite fmap_cons in Hnd. apply NoDup_cons in Hnd as [Ha Hnd].
  apply elem_of_cons in Hc as [->|Hc]; cbn.
  - rewrite insertAll_lookup_other by assumption. apply lookup_insert_eq.
  - now apply IH.
Qed.

Lemma insertAll_lookup_inv m cs (k : string) c :
  discovery.insertAll m cs !! k = Some c ->
  (c ∈ cs /\ discovery.ID c = k) \/ m !! k = Some c.
Proof.
  revert m. induction cs as [|a cs IH]; intros m H; [now right|].
  cbn in H. apply IH in H as [[Hc Hk]|H].
  - left. split; [now right | assumption].
  - rewrite lookup_insert in H. destruct (decide (discovery.ID a = k)) as [Hk|Hk].
    + injection H as <-. left. split; [now left | assumption].
    + now right.
Qed.

Lemma insertAll_size m cs :
  NoDup (discovery.ID <$> cs) ->
  (forall c, c ∈ cs -> m !! discovery.ID c = None) ->
  size (discovery.insertAll m cs) = size m + length cs.
Proof.
  revert m. induction cs as [|a cs IH]; intros m Hnd Hm; cbn; [lia|].
  rewrite fmap_cons in Hnd. apply NoDup_cons in Hnd as [Ha Hnd].
  rewrite IH.
  - rewrite map_size_insert_None; [lia|]. apply Hm. now left.
  - assumption.
  - intros c Hc. rewrite lookup_insert_ne.
    + apply Hm. now right.
    + intros E. apply Ha. rewrite E. now apply list_elem_of_fmap_2.
Qed.

(** A describe call that succeeded with a complete output is among the
    clusters described. *)
Lemma described_elem t input output c :
  aws.EvDescribeCluster input output None ∈ t ->
  aws.clusterOf output = Some c ->
  c ∈ aws.described t.
Proof.
  intros H Hc. induction t as [|ev t IH]; [inversion H|].
  apply elem_of_cons in H as [<-|H].
  - cbn. rewrite Hc. now left.
  - specialize (IH H). destruct ev as [| | |i o [e|]]; cbn; try assumption.
    destruct (aws.clusterOf o); [now right | assumption].
Qed.

(** When no listed name is nil and every describe call succeeds with a
    complete output, the loop describes every listed cluster and returns the
    map with all of them inserted. *)
Lemma describeEach_all_described clusters out s :
  (forall n, n ∈ clusters -> is_Some n) ->
  (forall i o e,
      aws.EvDescribeCluster i o e ∈ aws.trace (describeEach clusters out s) ->
      e = None /\ is_Some (aws.clusterOf o)) ->
  exists out',
    aws.result (describeEach clusters out s) = Returned (Some out', None) /\
    discovery.DiscoveryProvider out' = discovery.DiscoveryProvider out /\
    discovery.IdentityProvider out' = discovery.IdentityProvider out /\
    discovery.Clusters out'
      = discovery.insertAll (discovery.Clusters out)
          (aws.described (aws.trace (describeEach clusters out s))) /\
    aws.describeCalls (aws.trace (describeEach clusters out s)) = clusters /\
    length (aws.described (aws.trace (describeEach clusters out s)))
      = length clusters.
Proof.
  revert out s. induction clusters as [|c rest IH]; intros out s Hn Hd.
  - exists out. repeat split.
  - destruct (Hn c) as [name ->]; [now left|].
    revert Hd. rewrite describeEach_cons. cbv zeta.
    destruct (aws.describeCluster _ _ _) as [[output err] w1].
    destruct err as [e|].
    { intros Hd. destruct (Hd _ _ _ (list_elem_of_here _ _)) as [Hd' _].
      discriminate Hd'. }
    destruct (aws.clusterOf output) as [cl|] eqn:Hcl.
    2:{ intros Hd. destruct (Hd _ _ _ (list_elem_of_here _ _)) as [_ [x Hx]].
        rewrite Hcl in Hx. discriminate Hx. }
    specialize (IH (discovery.setCluster (discovery.ID cl) cl out)
                   (aws.mkState (aws.provider s) w1)).
    destruct (aws.describeEach W rest _ _) as [[r s2] t].
    intros Hd.
    destruct IH as (out' & Hr & Hdp & Hip & Hcs & Hcalls & Hlen).
    + intros n Hin. apply Hn. now right.
    + intros i o e Hin. apply (Hd i o e). now right.
    + exists out'. cbn in *. rewrite Hcl.
      repeat split; try assumption; cbn; congruence.
Qed.

(** X17.  In every run in which the list call succeeds
    and hands out cluster names (no nil pointer), every describe call
    succeeds (no error, and an output from which [getClusterConfig] reads
    the cluster: ARN, name and certificate authority are present), and the
    clusters described have pairwise distinct ids, [Discover] returns no
    error and an output that names the provider and "aws"; every listed
    cluster has been described, the map has as many entries as clusters were
    listed, each described cluster is found under its id with the name,
    endpoint and certificate data the describe call returned, and the map
    has no other entry. *)
Theorem Discover_clusters_by_id ctx input s pages :
  aws.EvListClustersPages eks.mkListClustersInput pages None
    ∈ aws.trace (Discover ctx input s) ->
  (forall clusterName, clusterName ∈ aws.listed pages -> is_Some clusterName) ->
  (forall i o e,
      aws.EvDescribeCluster i o e ∈ aws.trace (Discover ctx input s) ->
      e = None /\ is_Some (aws.clusterOf o)) ->
  NoDup (discovery.ID <$> aws.described (aws.trace (Discover ctx input s))) ->
  exists out,
    aws.result (Discover ctx input s) = Returned (Some out, None) /\
    discovery.DiscoveryProvider out = ProviderName /\
    discovery.IdentityProvider out = "aws" /\
    aws.describeCalls (aws.trace (Discover ctx input s)) = aws.listed pages /\
    size (discovery.Clusters out) = length (aws.listed pages) /\
    (forall i arn name endpoint data,
        aws.EvDescribeCluster i
          (Some (eks.mkDescribeClusterOutput
                   (Some (eks.mkCluster (Some arn) (Some name) endpoint
                            (Some (eks.mkCertificate data))))))
          None
          ∈ aws.trace (Discover ctx input s) ->
        discovery.Clusters out !! arn
          = Some (discovery.mkCluster arn name endpoint data)) /\
    (forall k c,
        discovery.Clusters out !! k = Some c ->
        discovery.ID c = k /\
        c ∈ aws.described (aws.trace (Discover ctx input s))).
Proof.
  intros H.
  destruct (Discover_list_event _ _ _ _ _ _ H) as (s1 & w1 & Hs & Hp).
  clear H. rewrite Discover_run. cbv zeta. rewrite Hs, Hp.
  destruct (aws.listed pages) as [|c l] eqn:Hl.
  - intros _ _ _. exists emptyOutput. cbn.
    repeat split; try reflexivity.
    + intros i arn name endpoint data Hin.
      repeat (apply elem_of_cons in Hin as [Hin|Hin]; [discriminate Hin|]).
      inversion Hin.
    + rewrite lookup_empty in H. discriminate H.
    + rewrite lookup_empty in H. discriminate H.
  - pose proof (describeEach_all_described (c :: l) emptyOutput
                  (aws.mkState (aws.provider s1) w1)) as HL.
    destruct (aws.describeEach W (c :: l) _ _) as [[r3 s3] t3].
    cbn. intros Hn Hd Hnd.
    destruct HL as (out & Hr & Hdp & Hip & Hcs & Hcalls & Hlen).
    { exact Hn. }
    { intros i o e Hin. apply (Hd i o e). now do 3 right. }
    cbn in *. exists out. rewrite Hcs.
    repeat split; try assumption.
    + rewrite insertAll_size by (try assumption; intros; apply lookup_empty).
      rewrite map_size_empty. cbn in Hlen. lia.
    + intros i arn name endpoint data Hin.
      repeat (apply elem_of_cons in Hin as [Hin|Hin]; [discriminate Hin|]).
      apply (insertAll_lookup _ _ (discovery.mkCluster arn name endpoint data));
        [assumption|].
      eapply described_elem; [exact Hin | reflexivity].
    + apply insertAll_lookup_inv in H as [[_ Hk]|H]; [assumption|].
      rewrite lookup_empty in H. discriminate H.
    + apply insertAll_lookup_inv in H as [[Hc _]|H]; [assumption|].
      rewrite lookup_empty in H. discriminate H.
Qed.

(** An error that ends the loop wraps the error of a describe call. *)
Lemma describeEach_error_cause clusters out s out' err :
  aws.result (describeEach clusters out s) = Returned (out', Some err) ->
  out' = None /\
  exists cause,
    cause ∈ chain err /\
    cause ∈ aws.returnedErrors (aws.trace (describeEach clusters out s)).
Proof.
  revert out s. induction clusters as [|c rest IH]; intros out s.
  - intros H. discriminate H.
  - rewrite describeEach_cons. destruct c as [name|]; [|intros H; discriminate H].
    cbv zeta. destruct (aws.describeCluster _ _ _) as [[output err'] w1].
    destruct err' as [e|].
    + intros H. injection H as <- <-. split; [reflexivity|].
      exists e. split; [|now left].
      rewrite !chain_fmt_Errorf_w. do 2 right. apply chain_self.
    + destruct (aws.clusterOf output) as [cl|]; [|intros H; discriminate H].
      specialize (IH (discovery.setCluster (discovery.ID cl) cl out)
                     (aws.mkState (aws.provider s) w1)).
      destruct (aws.describeEach W rest _ _) as [[r s2] t].
      exact IH.
Qed.

(** C5, as the code has it.  [Discover] does not consult its context: the
    run is the same, call for call, under any two contexts, whenever they
    are cancelled.  The only errors it returns come with a nil output and
    wrap an error that [setup], the list call or a describe call returned
    in that run; [Discover] raises no cancellation error of its own. *)
Theorem Discover_ignores_context ctx ctx' input s :
  Discover ctx input s = Discover ctx' input s /\
  (forall out err,
      aws.result (Discover ctx input s) = Returned (out, Some err) ->
      out = None /\
      exists cause,
        cause ∈ chain err /\
        cause ∈ aws.returnedErrors (aws.trace (Discover ctx input s))).
Proof.
  split; [reflexivity|].
  intros out err. rewrite Discover_run. cbv zeta.
  destruct (setup _ _ s) as [r s1].
  destruct r as [[e|]|msg].
  - intros H. injection H as <- <-. split; [reflexivity|].
    exists e. split; [|now left].
    rewrite chain_fmt_Errorf_w. right. apply chain_self.
  - destruct (aws.listClustersPages _ _ _) as [[pages err'] w1].
    destruct err' as [e|].
    + intros H. injection H as <- <-. split; [reflexivity|].
      exists e. split; [|now left].
      rewrite !chain_fmt_Errorf_w. do 2 right. apply chain_self.
    + destruct (aws.listed pages) as [|c l]; [intros H; discriminate H|].
      pose proof (describeEach_error_cause (c :: l) emptyOutput
                    (aws.mkState (aws.provider s1) w1) out err) as HE.
      destruct (aws.describeEach W (c :: l) _ _) as [[r3 s3] t3].
      exact HE.
  - intros H. discriminate H.
Qed.

End EKS.

(** ** The EKS provider on scripted runs *)

(** An instance of [Discover_fails_fast]: clusters a and b are listed, a is
    described, the call for b fails; the run returns the wrapped error and
    no output. *)
Lemma Discover_fails_fast_witness :
  aws.EvDescribeCluster (eks.mkDescribeClusterInput (Some "b")) None
                        (Some fixture.accessDenied)
    ∈ aws.trace
        (fixture.Discover fixture.background (fixture.input fixture.awsIdentity)
           (fixture.start
              (fixture.service [["a"; "b"]] None fixture.describeFailingB))) /\
  aws.result
    (fixture.Discover fixture.background (fixture.input fixture.awsIdentity)
       (fixture.start (fixture.service [["a"; "b"]] None fixture.describeFailingB)))
  = Returned
      (None,
       Some (fmt_Errorf_w "getting cluster config: "
               (fmt_Errorf_w "describing cluster b: " fixture.accessDenied))).
Proof.
  split.
  - vm_compute. repeat constructor.
  - apply (Discover_fails_fast nat "eks" fixture.setup fixture.background
             (fixture.input fixture.awsIdentity)
             (fixture.start
                (fixture.service [["a"; "b"]] None fixture.describeFailingB))
             "b" None fixture.accessDenied).
    vm_compute. repeat constructor.
Defined.

(** An instance of [Discover_no_clusters]: the service answers the list
    call with one empty page. *)
Lemma Discover_no_clusters_witness :
  aws.result
    (fixture.Discover fixture.background (fixture.input fixture.awsIdentity)
       (fixture.start (fixture.service [[]] None fixture.describeAll)))
  = Returned (Some (discovery.mkDiscoverOutput "eks" "aws" ∅), None) /\
  aws.describeCalls
    (aws.trace
       (fixture.Discover fixture.background (fixture.input fixture.awsIdentity)
          (fixture.start (fixture.service [[]] None fixture.describeAll))))
  = [].
Proof.
  apply (Discover_no_clusters nat "eks" fixture.setup fixture.background
           (fixture.input fixture.awsIdentity)
           (fixture.start (fixture.service [[]] None fixture.describeAll))
           [eks.mkListClustersOutput []]).
  - vm_compute. repeat constructor.
  - reflexivity.
Defined.

(** An instance of [Discover_setup_first]: the stand-in [setup] refuses an
    OIDC identity; the run is the call of [setup] and nothing else. *)
Lemma Discover_setup_first_witness :
  aws.result
    (fixture.Discover fixture.background (fixture.input fixture.oidcIdentity)
       (fixture.start (fixture.service [["a"; "b"]] None fixture.describeAll)))
  = Returned
      (None,
       Some (fmt_Errorf_w "setting up eks provider: " fixture.ErrUnsupportedIdentity)) /\
  aws.trace
    (fixture.Discover fixture.background (fixture.input fixture.oidcIdentity)
       (fixture.start (fixture.service [["a"; "b"]] None fixture.describeAll)))
  = [aws.EvSetup config.NewConfigurationSet fixture.oidcIdentity
       (Returned (Some fixture.ErrUnsupportedIdentity))].
Proof.
  destruct (Discover_setup_first nat "eks" fixture.setup fixture.background
              (fixture.input fixture.oidcIdentity)
              (fixture.start (fixture.service [["a"; "b"]] None fixture.describeAll)))
    as [_ H].
  destruct (H fixture.ErrUnsupportedIdentity eq_refl) as (Hr & Ht & _).
  split; [exact Hr | exact Ht].
Defined.

(** An instance of [Discover_clusters_by_id]: clusters a and b, each under
    its own ARN. *)
Lemma Discover_clusters_by_id_witness :
  exists out,
    aws.result
      (fixture.Discover fixture.background (fixture.input fixture.awsIdentity)
         (fixture.start (fixture.service [["a"; "b"]] None fixture.describeAll)))
    = Returned (Some out, None) /\
    size (discovery.Clusters out) = 2 /\
    discovery.Clusters out !! "arn:aws:eks:eu-west-1:1:cluster/b"
    = Some (discovery.mkCluster "arn:aws:eks:eu-west-1:1:cluster/b" "b"
              (Some "https://b.eks.amazonaws.com") (Some "LS0tLS1CRUdJTg==")).
Proof.
  destruct (Discover_clusters_by_id nat "eks" fixture.setup fixture.background
              (fixture.input fixture.awsIdentity)
              (fixture.start (fixture.service [["a"; "b"]] None fixture.describeAll))
              [eks.mkListClustersOutput [Some "a"; Some "b"]])
    as (out & Hr & _ & _ & _ & Hsize & Hlookup & _).
  - vm_compute. repeat constructor.
  - intros n Hn. apply list_elem_of_In in Hn. vm_compute in Hn.
    repeat (destruct Hn as [<-|Hn]; [now eexists|]). destruct Hn.
  - intros i o e Hin. apply list_elem_of_In in Hin. vm_compute in Hin.
    repeat (destruct Hin as [Hin|Hin];
            [first [discriminate Hin
                   | injection Hin as <- <- <-;
                     split; [reflexivity | eexists; reflexivity]] |]).
    destruct Hin.
  - refine (bool_decide_unpack _ _). vm_compute. exact I.
  - exists out. split; [exact Hr|]. split; [exact Hsize|].
    apply (Hlookup (eks.mkDescribeClusterInput (Some "b"))).
    vm_compute. repeat constructor.
Defined.

(** A describe call that succeeds for a cluster that has no certificate
    authority yet: [getClusterConfig] follows the nil pointer and panics. *)
Example getClusterConfig_nil_certificate_authority :
  aws.result
    (aws.getClusterConfig nat "a"
       (fixture.start
          (fixture.service [["a"]] None
             (fun name =>
                (Some (eks.mkDescribeClusterOutput
                         (Some (eks.mkCluster (Some "arn:aws:eks:eu-west-1:1:cluster/a")
                                  (Some name) None None))),
                 None)))))
  = Panicked nilDereference.
Proof. reflexivity. Qed.

(** C3, where the code departs from it.  The list call hands out cluster a
    and the describe call for a succeeds: it returns no error and a cluster
    with its ARN and its name, which is still being created and has no
    endpoint and no certificate authority yet.  No call of the run failed,
    and [Discover] returns neither output nor error: it panics on the nil
    certificate authority that [getClusterConfig] follows unchecked. *)
Theorem Discover_creating_cluster_panics :
  aws.trace
    (fixture.Discover fixture.background (fixture.input fixture.awsIdentity)
       fixture.creating)
  = [aws.EvSetup config.NewConfigurationSet fixture.awsIdentity (Returned None);
     aws.EvInfo "discovering EKS clusters";
     aws.EvListClustersPages eks.mkListClustersInput
       [eks.mkListClustersOutput [Some "a"]] None;
     aws.EvDescribeCluster (eks.mkDescribeClusterInput (Some "a"))
       (Some (eks.mkDescribeClusterOutput
                (Some (eks.mkCluster (Some "arn:aws:eks:eu-west-1:1:cluster/a")
                         (Some "a") None None))))
       None] /\
  aws.returnedErrors
    (aws.trace
       (fixture.Discover fixture.background (fixture.input fixture.awsIdentity)
          fixture.creating))
  = [] /\
  aws.result
    (fixture.Discover fixture.background (fixture.input fixture.awsIdentity)
       fixture.creating)
  = Panicked nilDereference.
Proof. repeat split. Qed.

(** Two listed clusters described under one id: both describe calls
    succeed, and the map returned has a single entry, which holds the
    cluster described last; cluster a has no entry of its own. *)
Lemma Discover_shared_id_counterexample :
  aws.describeCalls
    (aws.trace
       (fixture.Discover fixture.background (fixture.input fixture.awsIdentity)
          (fixture.start (fixture.service [["a"; "b"]] None fixture.describeSameArn))))
  = [Some "a"; Some "b"] /\
  aws.returnedErrors
    (aws.trace
       (fixture.Discover fixture.background (fixture.input fixture.awsIdentity)
          (fixture.start (fixture.service [["a"; "b"]] None fixture.describeSameArn))))
  = [] /\
  discovery.Name <$>
    aws.described
      (aws.trace
         (fixture.Discover fixture.background (fixture.input fixture.awsIdentity)
            (fixture.start
               (fixture.service [["a"; "b"]] None fixture.describeSameArn))))
  = ["a"; "b"] /\
  exists out,
    aws.result
      (fixture.Discover fixture.background (fixture.input fixture.awsIdentity)
         (fixture.start (fixture.service [["a"; "b"]] None fixture.describeSameArn)))
    = Returned (Some out, None) /\
    size (discovery.Clusters out) = 1 /\
    discovery.Name <$> (discovery.Clusters out
                          !! "arn:aws:eks:eu-west-1:1:cluster/shared")
    = Some "b".
Proof.
  split; [reflexivity|]. split; [reflexivity|]. split; [reflexivity|].
  eexists. split; [vm_compute; reflexivity|].
  split; vm_compute; reflexivity.
Qed.

(** An instance of [Discover_ignores_context]: the call for cluster b
    fails; the run is the same under a context cancelled meanwhile, and the
    error returned wraps the error of that call. *)
Lemma Discover_ignores_context_witness :
  fixture.Discover fixture.cancelledAfterFirstCall
    (fixture.input fixture.awsIdentity)
    (fixture.start (fixture.service [["a"; "b"]] None fixture.describeFailingB))
  = fixture.Discover fixture.background (fixture.input fixture.awsIdentity)
      (fixture.start (fixture.service [["a"; "b"]] None fixture.describeFailingB)) /\
  exists cause,
    cause ∈ chain (fmt_Errorf_w "getting cluster config: "
                     (fmt_Errorf_w "describing cluster b: " fixture.accessDenied)) /\
    cause ∈ aws.returnedErrors
              (aws.trace
                 (fixture.Discover fixture.cancelledAfterFirstCall
                    (fixture.input fixture.awsIdentity)
                    (fixture.start
                       (fixture.service [["a"; "b"]] None fixture.describeFailingB)))).
Proof.
  destruct (Discover_ignores_context nat "eks" fixture.setup
              fixture.cancelledAfterFirstCall fixture.background
              (fixture.input fixture.awsIdentity)
              (fixture.start
                 (fixture.service [["a"; "b"]] None fixture.describeFailingB)))
    as [Heq Herr].
  split; [exact Heq|].
  destruct (Herr None
              (fmt_Errorf_w "getting cluster config: "
                 (fmt_Errorf_w "describing cluster b: " fixture.accessDenied)))
    as [_ Hcause]; [vm_compute; reflexivity|].
  exact Hcause.
Defined.

(** A context cancelled during the run: it is live when the run starts and
    cancelled once the list call has been served, yet [Discover] goes on to
    describe both clusters and returns the full output with no error. *)
Lemma Discover_cancelled_context_counterexample :
  fixture.cancelledAfterFirstCall 0 = None /\
  fixture.cancelledAfterFirstCall 1 = Some context_Canceled /\
  aws.world
    (aws.final
       (fixture.Discover fixture.cancelledAfterFirstCall
          (fixture.input fixture.awsIdentity)
          (fixture.start (fixture.service [["a"; "b"]] None fixture.describeAll))))
  = 3 /\
  aws.describeCalls
    (aws.trace
       (fixture.Discover fixture.cancelledAfterFirstCall
          (fixture.input fixture.awsIdentity)
          (fixture.start (fixture.service [["a"; "b"]] None fixture.describeAll))))
  = [Some "a"; Some "b"] /\
  exists out,
    aws.result
      (fixture.Discover fixture.cancelledAfterFirstCall
         (fixture.input fixture.awsIdentity)
         (fixture.start (fixture.service [["a"; "b"]] None fixture.describeAll)))
    = Returned (Some out, None) /\
    size (discovery.Clusters out) = 2.
Proof.
  split; [reflexivity|]. split; [reflexivity|]. split; [reflexivity|].
  split; [reflexivity|].
  eexists. split; [vm_compute; reflexivity|]. vm_compute. reflexivity.
Qed.

(** * Further properties of the EKS provider *)

Lemma append_assoc_string (s1 s2 s3 : string) :
  (s1 +:+ s2) +:+ s3 = s1 +:+ s2 +:+ s3.
Proof.
  induction s1 as [|c s1 IH]; [reflexivity|].
  change (String c ((s1 +:+ s2) +:+ s3) = String c (s1 +:+ s2 +:+ s3)).
  now rewrite IH.
Qed.

Section EKSRuns.

Variable W : Type.
Variable ProviderName : string.
Variable setup :
  config.ConfigurationSet -> identity.Identity -> aws.State W ->
  Outcome (option error) * aws.State W.

#[local] Abbreviation Discover := (aws.Discover W ProviderName setup).
#[local] Abbreviation describeEach := (aws.describeEach W).
#[local] Abbreviation getClusterConfig := (aws.getClusterConfig W).
#[local] Abbreviation listClusters := (aws.listClusters W).
#[local] Abbreviation emptyOutput :=
  (discovery.mkDiscoverOutput ProviderName "aws" ∅).

(** *** [listClusters] *)

(** X1.  When the enumeration ends without error, [listClusters] returns the
    names of every page, page after page and in the order of each page, with
    a nil error; it makes one call of the client and leaves the provider as
    it was. *)
Theorem listClusters_collects_every_page s pages w1 :
  aws.listClustersPages (aws.eksClient (aws.provider s))
    eks.mkListClustersInput (aws.world s) = (pages, None, w1) ->
  listClusters s =
    (Returned (concat (map eks.Clusters pages), None),
     aws.mkState (aws.provider s) w1,
     [aws.EvListClustersPages eks.mkListClustersInput pages None]).
Proof. intros H. rewrite listClusters_run, H. reflexivity. Qed.

(** X2.  When the enumeration fails, [listClusters] returns the error,
    wrapped, and a nil slice: the names of the pages received before the
    failure are dropped. *)
Theorem listClusters_error_drops_pages s pages e w1 :
  aws.listClustersPages (aws.eksClient (aws.provider s))
    eks.mkListClustersInput (aws.world s) = (pages, Some e, w1) ->
  aws.result (listClusters s)
    = Returned ([], Some (fmt_Errorf_w "listing clusters: " e)) /\
  aws.trace (listClusters s)
    = [aws.EvListClustersPages eks.mkListClustersInput pages (Some e)].
Proof. intros H. rewrite listClusters_run, H. split; reflexivity. Qed.

(** *** [getClusterConfig] *)

(** X3.  The error of the describe call is looked at first: when the call
    fails, [getClusterConfig] returns no cluster and the error, wrapped in a
    message that names the cluster, whatever the output is (nil or
    incomplete: it is not read, and nothing panics). *)
Theorem getClusterConfig_error_first clusterName s output e w1 :
  aws.describeCluster (aws.eksClient (aws.provider s))
    (eks.mkDescribeClusterInput (Some clusterName)) (aws.world s)
    = (output, Some e, w1) ->
  exists err,
    aws.result (getClusterConfig clusterName s) = Returned (None, Some err) /\
    Unwrap err = Some e /\
    Error err = "describing cluster " +:+ clusterName +:+ ": " +:+ Error e /\
    mentions (Error err) clusterName.
Proof.
  intros H. rewrite getClusterConfig_run. cbv zeta. rewrite H.
  eexists. split; [reflexivity|]. split; [reflexivity|].
  assert (Hm : Error (fmt_Errorf_w ("describing cluster " +:+ clusterName +:+ ": ") e)
               = "describing cluster " +:+ clusterName +:+ ": " +:+ Error e).
  { rewrite Error_fmt_Errorf_w. rewrite !append_assoc_string. reflexivity. }
  split; [exact Hm|].
  rewrite Hm. exists "describing cluster ", (": " +:+ Error e). reflexivity.
Qed.

(** X4.  A describe call that succeeds with the ARN and the name present:
    the endpoint may be nil, and so may the data of the certificate
    authority, they are copied as they are; but when the certificate
    authority itself is nil, [getClusterConfig] panics on the nil pointer. *)
Theorem getClusterConfig_certificate_authority
    clusterName s arn name endpoint certificateAuthority w1 :
  aws.describeCluster (aws.eksClient (aws.provider s))
    (eks.mkDescribeClusterInput (Some clusterName)) (aws.world s)
    = (Some (eks.mkDescribeClusterOutput
               (Some (eks.mkCluster (Some arn) (Some name) endpoint
                                    certificateAuthority))),
       None, w1) ->
  aws.result (getClusterConfig clusterName s) =
    match certificateAuthority with
    | Some certificate =>
        Returned (Some (discovery.mkCluster arn name endpoint
                          (eks.Data certificate)),
                  None)
    | None => Panicked nilDereference
    end.
Proof.
  intros H. rewrite getClusterConfig_run. cbv zeta. rewrite H.
  destruct certificateAuthority as [[data]|]; reflexivity.
Qed.

(** *** The loop *)

(** What one run of the loop guarantees, whichever way it ends. *)
Lemma describeEach_inv clusters out s :
  aws.provider (aws.final (describeEach clusters out s)) = aws.provider s /\
  aws.describeCalls (aws.trace (describeEach clusters out s))
    `prefix_of` clusters /\
  Forall aws.isDescribe (aws.trace (describeEach clusters out s)) /\
  match aws.result (describeEach clusters out s) with
  | Returned (Some out', None) =>
      aws.describeCalls (aws.trace (describeEach clusters out s)) = clusters /\
      discovery.Clusters out'
        = discovery.insertAll (discovery.Clusters out)
            (aws.described (aws.trace (describeEach clusters out s))) /\
      length (aws.described (aws.trace (describeEach clusters out s)))
        = length clusters /\
      discovery.DiscoveryProvider out' = discovery.DiscoveryProvider out /\
      discovery.IdentityProvider out' = discovery.IdentityProvider out /\
      aws.returnedErrors (aws.trace (describeEach clusters out s)) = []
  | Returned (None, Some err) => True
  | Returned (Some _, Some _) | Returned (None, None) => False
  | Panicked msg =>
      msg = nilDereference /\
      ((exists rest,
           clusters
           = aws.describeCalls (aws.trace (describeEach clusters out s))
             ++ None :: rest) \/
       (exists i o,
           last (aws.trace (describeEach clusters out s))
           = Some (aws.EvDescribeCluster i o None) /\
           aws.clusterOf o = None))
  end.
Proof.
  revert out s. induction clusters as [|c rest IH]; intros out s.
  - cbn. split; [reflexivity|]. split; [reflexivity|]. split; [constructor|].
    repeat split.
  - rewrite describeEach_cons. destruct c as [name|].
    2:{ cbn. split; [reflexivity|]. split; [apply prefix_nil|].
        split; [constructor|]. split; [reflexivity|].
        left. now exists rest. }
    cbv zeta. destruct (aws.describeCluster _ _ _) as [[output err] w1].
    destruct err as [e|].
    { cbn. split; [reflexivity|]. split; [apply prefix_cons, prefix_nil|].
      split; [repeat constructor | exact I]. }
    destruct (aws.clusterOf output) as [cl|] eqn:Hcl.
    2:{ cbn. split; [reflexivity|]. split; [apply prefix_cons, prefix_nil|].
        split; [repeat constructor|]. split; [reflexivity|].
        right. eauto. }
    specialize (IH (discovery.setCluster (discovery.ID cl) cl out)
                   (aws.mkState (aws.provider s) w1)).
    destruct (aws.describeEach W rest _ _) as [[r s2] t].
    cbn in *. destruct IH as (Hp & Hpre & Hall & Hr).
    split; [exact Hp|]. split; [now apply prefix_cons|].
    split; [now constructor|].
    rewrite Hcl.
    destruct r as [[[out'|] [err|]]|msg]; try exact Hr.
    + destruct Hr as (Hcalls & Hcs & Hlen & Hdp & Hip & Herrs).
      repeat split; cbn; congruence.
    + destruct Hr as (-> & Hr). split; [reflexivity|].
      destruct Hr as [(rest' & ->)|(i & o & Hlast & Ho)].
      * left. now exists rest'.
      * right. exists i, o. split; [|exact Ho].
        rewrite last_cons, Hlast. reflexivity.
Qed.

(** *** The cluster map, with ids that may repeat *)

Lemma insertAll_is_Some m cs (k : string) :
  is_Some (discovery.insertAll m cs !! k)
  <-> k ∈ discovery.ID <$> cs \/ is_Some (m !! k).
Proof.
  revert m. induction cs as [|a cs IH]; intros m; cbn.
  - rewrite elem_of_nil. tauto.
  - rewrite IH, lookup_insert_is_Some, elem_of_cons.
    destruct (decide (discovery.ID a = k)); [subst; tauto|].
    intuition congruence.
Qed.

Lemma insertAll_size_le m cs :
  size (discovery.insertAll m cs) <= size m + length cs.
Proof.
  revert m. induction cs as [|a cs IH]; intros m; cbn; [lia|].
  etransitivity; [apply IH|]. rewrite map_size_insert.
  destruct (m !! discovery.ID a); cbn; lia.
Qed.

Lemma insertAll_last m l1 c l2 :
  discovery.ID c ∉ discovery.ID <$> l2 ->
  discovery.insertAll m (l1 ++ c :: l2) !! discovery.ID c = Some c.
Proof.
  intros H. unfold discovery.insertAll. rewrite foldl_app. cbn.
  fold (discovery.insertAll (<[discovery.ID c:=c]> (discovery.insertAll m l1)) l2).
  rewrite insertAll_lookup_other by assumption. apply lookup_insert_eq.
Qed.

(** *** [Discover], whichever way a run ends *)

Ltac Discover_cases ctx input s :=
  rewrite (Discover_run W ProviderName setup ctx input s); cbv zeta;
  destruct (setup _ _ s) as [r s1];
  destruct r as [[e0|]|msg0];
  [ | destruct (aws.listClustersPages _ _ _) as [[pages' err'] w1];
      destruct err' as [e0|];
      [ | destruct (aws.listed pages') as [|c0 l0] eqn:Hl;
          [ | rewrite <- Hl;
              pose proof (describeEach_inv (aws.listed pages') emptyOutput
                            (aws.mkState (aws.provider s1) w1)) as Hinv;
              destruct (aws.describeEach W (aws.listed pages') _ _)
                as [[r3 s3] t3] ] ]
    | ]; cbn [aws.result aws.trace aws.final fst snd app] in *.

(** X5.  When the list call fails, [Discover] returns a nil output and the
    error wrapped twice, so that its message starts with "listing clusters:
    listing clusters: "; nothing is described, whatever pages had come
    before the failure. *)
Theorem Discover_list_failure ctx input s i pages e :
  aws.EvListClustersPages i pages (Some e) ∈ aws.trace (Discover ctx input s) ->
  aws.result (Discover ctx input s)
    = Returned (None,
                Some (fmt_Errorf_w "listing clusters: "
                        (fmt_Errorf_w "listing clusters: " e))) /\
  Error (fmt_Errorf_w "listing clusters: " (fmt_Errorf_w "listing clusters: " e))
    = "listing clusters: listing clusters: " +:+ Error e /\
  aws.describeCalls (aws.trace (Discover ctx input s)) = [].
Proof.
  intros H.
  destruct (Discover_list_event _ _ _ _ _ _ _ _ _ H) as (s1 & w1 & Hs & Hp).
  rewrite Discover_run. cbv zeta. rewrite Hs, Hp. repeat split.
Qed.

(** X6.  In every run, either nothing is described, or the run splits at a
    successful list call: no describe call comes before it, all that comes
    after it are describe calls, and these follow the names it handed out,
    one call per name and in their order (they are a prefix of the listed
    names). *)
Theorem Discover_describes_listed_in_order ctx input s :
  aws.describeCalls (aws.trace (Discover ctx input s)) = [] \/
  exists pages before after,
    aws.trace (Discover ctx input s)
      = before
        ++ aws.EvListClustersPages eks.mkListClustersInput pages None :: after /\
    aws.describeCalls before = [] /\
    Forall aws.isDescribe after /\
    aws.describeCalls after `prefix_of` aws.listed pages.
Proof.
  Discover_cases ctx input s; try (left; reflexivity).
  right.
  exists pages',
    [aws.EvSetup (discovery.ConfigSet input) (discovery.Identity input)
       (Returned None);
     aws.EvInfo "discovering EKS clusters"],
    t3.
  split; [reflexivity|]. split; [reflexivity|].
  split; apply Hinv.
Qed.

(** X7.  [Discover] returns an output or an error, never both and never
    neither. *)
Theorem Discover_output_xor_error ctx input s out err :
  aws.result (Discover ctx input s) = Returned (out, err) ->
  (is_Some out <-> err = None).
Proof.
  Discover_cases ctx input s; intros H; try discriminate H;
    try (injection H as <- <-; split; [intros [? ?]; discriminate | discriminate]).
  - injection H as <- <-. split; [reflexivity | eauto].
  - subst r3. destruct Hinv as (_ & _ & _ & Hr).
    destruct out as [out'|], err as [err'|]; try destruct Hr.
    + split; [reflexivity | eauto].
    + split; [intros [? ?]; discriminate | discriminate].
Qed.

(** X8.  An output returned by [Discover] is sound.  It names the provider
    and "aws"; the run listed successfully, described every listed name and
    no call of it returned an error; the keys of the cluster map are exactly
    the ids of the clusters described, each entry is one of those clusters
    under its own id, and the map has at most one entry per listed name. *)
Theorem Discover_success_sound ctx input s out :
  aws.result (Discover ctx input s) = Returned (Some out, None) ->
  discovery.DiscoveryProvider out = ProviderName /\
  discovery.IdentityProvider out = "aws" /\
  (exists pages,
      aws.EvListClustersPages eks.mkListClustersInput pages None
        ∈ aws.trace (Discover ctx input s) /\
      aws.describeCalls (aws.trace (Discover ctx input s)) = aws.listed pages /\
      size (discovery.Clusters out) <= length (aws.listed pages)) /\
  aws.returnedErrors (aws.trace (Discover ctx input s)) = [] /\
  (forall k : string,
      is_Some (discovery.Clusters out !! k)
      <-> k ∈ discovery.ID <$> aws.described (aws.trace (Discover ctx input s))) /\
  (forall (k : string) c,
      discovery.Clusters out !! k = Some c ->
      discovery.ID c = k /\
      c ∈ aws.described (aws.trace (Discover ctx input s))).
Proof.
  Discover_cases ctx input s; intros H; try discriminate H.
  - injection H as <-. cbn.
    split; [reflexivity|]. split; [reflexivity|].
    split.
    { exists pages'. rewrite Hl. split; [do 2 right; left | split; [reflexivity|]].
      rewrite map_size_empty. cbn. lia. }
    split; [reflexivity|].
    split.
    + intros k. rewrite lookup_empty, elem_of_nil. split; [intros [? ?]; discriminate | tauto].
    + intros k cl Hk. rewrite lookup_empty in Hk. discriminate Hk.
  - subst r3. destruct Hinv as (_ & _ & _ & Hcalls & Hcs & Hlen & Hdp & Hip & Herrs).
    cbn in *.
    split; [exact Hdp|]. split; [exact Hip|].
    split.
    { exists pages'. split; [do 2 right; left | split; [exact Hcalls|]].
      rewrite Hcs. etransitivity; [apply insertAll_size_le|].
      rewrite map_size_empty. lia. }
    split; [exact Herrs|].
    split.
    + intros k. rewrite Hcs, insertAll_is_Some, lookup_empty.
      split; [intros [?|[? ?]]; [assumption | discriminate] | auto].
    + intros k cl Hk. rewrite Hcs in Hk.
      apply insertAll_lookup_inv in Hk as [[Hc Hid]|Hk]; [auto|].
      rewrite lookup_empty in Hk. discriminate Hk.
Qed.

(** X9.  When two clusters of a run are described under one id, the one
    described last is the one in the map: each described cluster after which
    no cluster of the same id is described is found under its id. *)
Theorem Discover_last_described_wins ctx input s out before c after :
  aws.result (Discover ctx input s) = Returned (Some out, None) ->
  aws.described (aws.trace (Discover ctx input s)) = before ++ c :: after ->
  discovery.ID c ∉ discovery.ID <$> after ->
  discovery.Clusters out !! discovery.ID c = Some c.
Proof.
  Discover_cases ctx input s; intros H; try discriminate H.
  - intros Hd. destruct before; discriminate Hd.
  - subst r3. destruct Hinv as (_ & _ & _ & _ & Hcs & _).
    cbn in *. intros Hd Hc. rewrite Hcs, Hd. now apply insertAll_last.
Qed.

(** X10.  [Discover] itself does not change the provider: when the run is
    over the provider is as [setup] left it. *)
Theorem Discover_keeps_provider ctx input s :
  aws.provider (aws.final (Discover ctx input s))
  = aws.provider
      (setup (discovery.ConfigSet input) (discovery.Identity input) s).2.
Proof.
  Discover_cases ctx input s; try reflexivity.
  cbn. apply Hinv.
Qed.

(** X11.  Where a panic of [Discover] comes from, the provider's logger and
    client being in place.  Either the input pointer is nil, and the call
    panics before [setup] is called and before anything else happens; or
    [setup] panicked; or the list call had succeeded and the run hit a nil
    pointer: the next listed name is nil, or the describe call made last
    returned no error and an output that lacks the cluster, its ARN, its
    name or its certificate authority. *)
Theorem Discover_panic_cause ctx input s msg :
  aws.result (aws.Discover_ptr W ProviderName setup ctx input s) = Panicked msg ->
  (input = None /\ msg = nilDereference /\
   aws.trace (aws.Discover_ptr W ProviderName setup ctx input s) = []) \/
  exists input',
    input = Some input' /\
    ((setup (discovery.ConfigSet input') (discovery.Identity input') s).1
       = Panicked msg \/
     (msg = nilDereference /\
      exists pages,
        aws.EvListClustersPages eks.mkListClustersInput pages None
          ∈ aws.trace (aws.Discover_ptr W ProviderName setup ctx input s) /\
        ((exists rest,
             aws.listed pages
             = aws.describeCalls
                 (aws.trace (aws.Discover_ptr W ProviderName setup ctx input s))
               ++ None :: rest) \/
         (exists i o,
             last (aws.trace (aws.Discover_ptr W ProviderName setup ctx input s))
             = Some (aws.EvDescribeCluster i o None) /\
             aws.clusterOf o = None)))).
Proof.
  destruct input as [input'|].
  2:{ intros H. left. injection H as <-. repeat split. }
  assert (Hptr : aws.Discover_ptr W ProviderName setup ctx (Some input') s
                 = Discover ctx input' s).
  { unfold aws.Discover_ptr, mbind, aws.M_bind, aws.bind. cbn [aws.deref].
    unfold aws.ret.
    destruct (aws.Discover W ProviderName setup ctx input' s) as [[r s'] t].
    reflexivity. }
  rewrite Hptr. clear Hptr. intros H. right. exists input'.
  split; [reflexivity|]. revert H.
  Discover_cases ctx input' s; intros H; try discriminate H.
  - subst r3. destruct Hinv as (_ & _ & _ & -> & Hr).
    right. split; [reflexivity|]. exists pages'.
    split; [do 2 right; left|]. cbn.
    destruct Hr as [Hr|(i & o & Hlast & Ho)]; [left; exact Hr|].
    right. exists i, o. split; [|exact Ho].
    rewrite !last_cons, Hlast. reflexivity.
  - left. congruence.
Qed.

End EKSRuns.

(** * Further properties of the AKS provider *)

Section AKSRuns.

Variable ClusterProviderConfig : Type.
Variable zeroClusterProviderConfig : ClusterProviderConfig.
Variable ErrHTTPClientRequired : error.
Variable ErrUnsupportedIdentity : error.
Variable Unmarshall :
  config.ConfigurationSet ->
  azure.aksClusterProviderConfig ClusterProviderConfig ->
  option error * azure.aksClusterProviderConfig ClusterProviderConfig.

#[local] Abbreviation zeroConfig :=
  (azure.zeroConfig ClusterProviderConfig zeroClusterProviderConfig).
#[local] Abbreviation setup :=
  (azure.setup ClusterProviderConfig zeroClusterProviderConfig
               ErrUnsupportedIdentity Unmarshall).
#[local] Abbreviation New := (azure.New ClusterProviderConfig ErrHTTPClientRequired).
#[local] Abbreviation mkProvider := (azure.mkProvider ClusterProviderConfig).

(** X12.  When the configuration does not unmarshal, [setup] fails before it
    looks at the identity: the result is the same for every identity, the
    provider keeps the configuration and the authorizer it had, nothing is
    logged, and the error returned wraps the unmarshalling error. *)
Theorem setup_unmarshall_failure_is_atomic cs userID userID' p e cfg :
  Unmarshall cs zeroConfig = (Some e, cfg) ->
  setup cs userID p = setup cs userID' p /\
  (setup cs userID p).1.2 = p /\
  (setup cs userID p).2 = [] /\
  exists err,
    (setup cs userID p).1.1 = Some err /\
    Unwrap err = Some e /\
    Error err
    = "unmarshalling config items into eksClusteProviderConfig: " +:+ Error e.
Proof.
  intros H.
  rewrite !(setup_unmarshall_error _ _ _ _ cs _ p e cfg H).
  repeat split. eexists. repeat split.
Qed.

(** X13.  [setup] changes nothing of the provider but its configuration and
    its authorizer: the HTTP client, the interactive flag and the logger are
    the ones it had, whatever the configuration set and the identity, and
    whether [setup] succeeds or not; and it logs at most one line. *)
Theorem setup_touches_config_and_authorizer_only cs userID p :
  azure.httpClient _ (setup cs userID p).1.2 = azure.httpClient _ p /\
  azure.interactive _ (setup cs userID p).1.2 = azure.interactive _ p /\
  azure.logger _ (setup cs userID p).1.2 = azure.logger _ p /\
  length (setup cs userID p).2 <= 1.
Proof.
  unfold azure.setup.
  destruct (Unmarshall cs zeroConfig) as [[err|] cfg]; [cbn; auto|].
  destruct userID; cbn; auto.
Qed.

(** X14.  A successful [setup] replaces what an earlier [setup] left: run
    after any other [setup], successful or not, it gives the same provider,
    error and log as run on the provider the other one started from. *)
Theorem setup_success_overwrites cs userID cs' userID' p :
  (setup cs userID p).1.1 = None ->
  setup cs userID (setup cs' userID' p).1.2 = setup cs userID p.
Proof.
  unfold azure.setup.
  destruct (Unmarshall cs zeroConfig) as [[err|] cfg]; [discriminate|].
  destruct (Unmarshall cs' zeroConfig) as [[err'|] cfg'];
    destruct userID; try discriminate; destruct userID', p; reflexivity.
Qed.

(** X15.  [setup] returns no error exactly when the configuration unmarshals
    and the identity is an OIDC identity or an authorizer identity; the
    provider then holds the unmarshalled configuration.  Whether it
    succeeds does not depend on the provider it is run on. *)
Theorem setup_succeeds_iff cs userID p :
  ((setup cs userID p).1.1 = None <->
   (Unmarshall cs zeroConfig).1 = None /\
   ((exists id, userID = identity.OIDCIdentity id) \/
    (exists id, userID = identity.AuthorizerIdentity id))) /\
  ((setup cs userID p).1.1 = None ->
   azure.config _ (setup cs userID p).1.2 = Some (Unmarshall cs zeroConfig).2) /\
  (forall p', (setup cs userID p').1.1 = (setup cs userID p).1.1).
Proof.
  unfold azure.setup.
  destruct (Unmarshall cs zeroConfig) as [[err|] cfg]; cbn.
  - split; [|split; [discriminate | reflexivity]].
    split; [discriminate | intros [H _]; discriminate H].
  - destruct userID; cbn.
    + split; [|split; reflexivity]. split; [eauto | reflexivity].
    + split; [|split; reflexivity]. split; [eauto | reflexivity].
    + split; [|split; [discriminate | reflexivity]].
      split; [discriminate|].
      intros [_ [[id H]|[id H]]]; discriminate H.
Qed.

(** X16.  [New] followed by [setup].  For an input with an HTTP client and a
    configuration set that unmarshals, the provider made by [New] starts
    with neither configuration nor authorizer, and [setup] on it leaves the
    input's client, flag and logger, the unmarshalled configuration, and as
    authorizer: the bearer authorizer for an OIDC identity, the carried
    authorizer for an authorizer identity, and none (with
    [ErrUnsupportedIdentity] returned) for any other identity. *)
Theorem New_then_setup input client cs cfg userID :
  azure.HTTPClient input = Some client ->
  Unmarshall cs zeroConfig = (None, cfg) ->
  exists p,
    New input = (Some p, None) /\
    azure.config _ p = None /\ azure.authorizer _ p = None /\
    (setup cs userID p).1 =
      match userID with
      | identity.OIDCIdentity id =>
          (None,
           mkProvider (Some cfg) (Some (autorest.NewBearerAuthorizer id))
             (Some client) (azure.IsInteractice input) (azure.Logger input))
      | identity.AuthorizerIdentity id =>
          (None,
           mkProvider (Some cfg) (azid.authorizer id)
             (Some client) (azure.IsInteractice input) (azure.Logger input))
      | identity.otherIdentity _ _ =>
          (Some ErrUnsupportedIdentity,
           mkProvider (Some cfg) None
             (Some client) (azure.IsInteractice input) (azure.Logger input))
      end.
Proof.
  intros Hc Hu. unfold azure.New. rewrite Hc.
  eexists. split; [reflexivity|]. split; [reflexivity|]. split; [reflexivity|].
  unfold azure.setup. rewrite Hu. destruct userID; reflexivity.
Qed.

End AKSRuns.

(** * The further properties on scripted runs *)

(** An instance of [listClusters_collects_every_page]: three names on two
    pages. *)
Lemma listClusters_collects_every_page_witness :
  aws.listClustersPages (aws.eksClient (aws.provider fixture.twoPages))
    eks.mkListClustersInput (aws.world fixture.twoPages)
  = ([eks.mkListClustersOutput [Some "a"];
      eks.mkListClustersOutput [Some "b"; Some "c"]], None, 1) /\
  aws.result (aws.listClusters nat fixture.twoPages)
  = Returned ([Some "a"; Some "b"; Some "c"], None).
Proof.
  split; [reflexivity|].
  rewrite (listClusters_collects_every_page nat fixture.twoPages
             [eks.mkListClustersOutput [Some "a"];
              eks.mkListClustersOutput [Some "b"; Some "c"]] 1 eq_refl).
  reflexivity.
Defined.

(** An instance of [listClusters_error_drops_pages]: two pages had come
    before the failure. *)
Lemma listClusters_error_drops_pages_witness :
  aws.listClustersPages (aws.eksClient (aws.provider fixture.listFails))
    eks.mkListClustersInput (aws.world fixture.listFails)
  = ([eks.mkListClustersOutput [Some "a"]; eks.mkListClustersOutput [Some "b"]],
     Some fixture.accessDenied, 1) /\
  aws.result (aws.listClusters nat fixture.listFails)
  = Returned ([], Some (fmt_Errorf_w "listing clusters: " fixture.accessDenied)).
Proof.
  split; [reflexivity|].
  apply (listClusters_error_drops_pages nat fixture.listFails
           [eks.mkListClustersOutput [Some "a"]; eks.mkListClustersOutput [Some "b"]]
           fixture.accessDenied 1 eq_refl).
Defined.

(** An instance of [getClusterConfig_error_first]: the call for cluster b
    fails with a nil output. *)
Lemma getClusterConfig_error_first_witness :
  exists err,
    aws.result (aws.getClusterConfig nat "b" fixture.describeFails)
    = Returned (None, Some err) /\
    Error err = "describing cluster b: AccessDeniedException".
Proof.
  destruct (getClusterConfig_error_first nat "b" fixture.describeFails None
              fixture.accessDenied 1 eq_refl)
    as (err & Hr & _ & Hm & _).
  exists err. split; [exact Hr | exact Hm].
Defined.

(** An instance of [getClusterConfig_certificate_authority]: a cluster that
    has no certificate authority yet. *)
Lemma getClusterConfig_certificate_authority_witness :
  aws.result (aws.getClusterConfig nat "a" fixture.creating)
  = Panicked nilDereference.
Proof.
  apply (getClusterConfig_certificate_authority nat "a" fixture.creating
           "arn:aws:eks:eu-west-1:1:cluster/a" "a" None None 1 eq_refl).
Defined.

(** An instance of [Discover_list_failure]. *)
Lemma Discover_list_failure_witness :
  aws.result
    (fixture.Discover fixture.background (fixture.input fixture.awsIdentity)
       fixture.listFails)
  = Returned (None,
              Some (fmt_Errorf_w "listing clusters: "
                      (fmt_Errorf_w "listing clusters: " fixture.accessDenied))) /\
  aws.describeCalls
    (aws.trace
       (fixture.Discover fixture.background (fixture.input fixture.awsIdentity)
          fixture.listFails))
  = [].
Proof.
  destruct (Discover_list_failure nat "eks" fixture.setup fixture.background
              (fixture.input fixture.awsIdentity) fixture.listFails
              eks.mkListClustersInput
              [eks.mkListClustersOutput [Some "a"]; eks.mkListClustersOutput [Some "b"]]
              fixture.accessDenied)
    as (Hr & _ & Hc).
  - vm_compute. repeat constructor.
  - split; [exact Hr | exact Hc].
Defined.

(** An instance of [Discover_output_xor_error]: the run in which the call
    for cluster b fails returns no output. *)
Lemma Discover_output_xor_error_witness :
  aws.result
    (fixture.Discover fixture.background (fixture.input fixture.awsIdentity)
       fixture.describeFails)
  = Returned
      (None,
       Some (fmt_Errorf_w "getting cluster config: "
               (fmt_Errorf_w "describing cluster b: " fixture.accessDenied))) /\
  (is_Some (None : option discovery.DiscoverOutput)
   <-> Some (fmt_Errorf_w "getting cluster config: "
               (fmt_Errorf_w "describing cluster b: " fixture.accessDenied))
       = None).
Proof.
  split; [vm_compute; reflexivity|].
  apply (Discover_output_xor_error nat "eks" fixture.setup fixture.background
           (fixture.input fixture.awsIdentity) fixture.describeFails).
  vm_compute. reflexivity.
Defined.

(** An instance of [Discover_success_sound]: two clusters described under
    one ARN give a map with one key. *)
Lemma Discover_success_sound_witness :
  exists out,
    aws.result
      (fixture.Discover fixture.background (fixture.input fixture.awsIdentity)
         fixture.sharedArn)
    = Returned (Some out, None) /\
    discovery.DiscoveryProvider out = "eks" /\
    (is_Some (discovery.Clusters out !! "arn:aws:eks:eu-west-1:1:cluster/shared")
     <-> "arn:aws:eks:eu-west-1:1:cluster/shared"
         ∈ discovery.ID <$>
             aws.described
               (aws.trace
                  (fixture.Discover fixture.background
                     (fixture.input fixture.awsIdentity) fixture.sharedArn))).
Proof.
  eexists. split; [vm_compute; reflexivity|].
  match goal with
  | |- discovery.DiscoveryProvider ?o = _ /\ _ =>
      destruct (Discover_success_sound nat "eks" fixture.setup fixture.background
                  (fixture.input fixture.awsIdentity) fixture.sharedArn o)
        as (Hdp & _ & _ & _ & Hkeys & _)
  end.
  - vm_compute. reflexivity.
  - split; [exact Hdp | apply Hkeys].
Defined.

(** An instance of [Discover_last_described_wins]: of clusters a and b under
    one ARN, b is the one in the map. *)
Lemma Discover_last_described_wins_witness :
  exists out,
    aws.result
      (fixture.Discover fixture.background (fixture.input fixture.awsIdentity)
         fixture.sharedArn)
    = Returned (Some out, None) /\
    discovery.Clusters out !! "arn:aws:eks:eu-west-1:1:cluster/shared"
    = Some (discovery.mkCluster "arn:aws:eks:eu-west-1:1:cluster/shared" "b"
              (Some "https://b.eks.amazonaws.com") (Some "LS0tLS1CRUdJTg==")).
Proof.
  eexists. split; [vm_compute; reflexivity|].
  apply (Discover_last_described_wins nat "eks" fixture.setup fixture.background
           (fixture.input fixture.awsIdentity) fixture.sharedArn _
           [discovery.mkCluster "arn:aws:eks:eu-west-1:1:cluster/shared" "a"
              (Some "https://a.eks.amazonaws.com") (Some "LS0tLS1CRUdJTg==")]
           (discovery.mkCluster "arn:aws:eks:eu-west-1:1:cluster/shared" "b"
              (Some "https://b.eks.amazonaws.com") (Some "LS0tLS1CRUdJTg=="))
           []).
  - vm_compute. reflexivity.
  - reflexivity.
  - cbn. apply not_elem_of_nil.
Defined.

(** An instance of [Discover_panic_cause]: the describe call for a cluster
    that is still being created succeeds, and the run panics on its
    output. *)
Lemma Discover_panic_cause_witness :
  aws.result
    (aws.Discover_ptr nat "eks" fixture.setup fixture.background
       (Some (fixture.input fixture.awsIdentity)) fixture.creating)
  = Panicked nilDereference /\
  exists i o,
    last (aws.trace
            (aws.Discover_ptr nat "eks" fixture.setup fixture.background
               (Some (fixture.input fixture.awsIdentity)) fixture.creating))
    = Some (aws.EvDescribeCluster i o None) /\
    aws.clusterOf o = None.
Proof.
  split; [reflexivity|].
  destruct (Discover_panic_cause nat "eks" fixture.setup fixture.background
              (Some (fixture.input fixture.awsIdentity)) fixture.creating
              nilDereference eq_refl)
    as [(H & _)|(input' & Hi & [H|(_ & pages & Hin & [(rest & H)|H])])].
  - discriminate H.
  - injection Hi as <-. discriminate H.
  - exfalso. apply list_elem_of_In in Hin. vm_compute in Hin.
    destruct Hin as [Hin|[Hin|[Hin|[Hin|[]]]]]; try discriminate Hin.
    injection Hin as <-. vm_compute in H.
    discriminate H.
  - exact H.
Defined.

(** An instance of [setup_unmarshall_failure_is_atomic]: a configuration set
    with no item does not unmarshal. *)
Lemma setup_unmarshall_failure_is_atomic_witness :
  fixture.aksSetup [] fixture.oidcIdentity fixture.aksProvider
  = fixture.aksSetup [] fixture.awsIdentity fixture.aksProvider /\
  (fixture.aksSetup [] fixture.oidcIdentity fixture.aksProvider).1.2
  = fixture.aksProvider.
Proof.
  destruct (setup_unmarshall_failure_is_atomic unit tt
              fixture.ErrUnsupportedIdentity fixture.Unmarshall []
              fixture.oidcIdentity fixture.awsIdentity fixture.aksProvider
              (errors_New "no cluster-name item") (azure.zeroConfig unit tt)
              eq_refl)
    as (Heq & Hp & _).
  split; [exact Heq | exact Hp].
Defined.

(** An instance of [setup_success_overwrites]: a refused identity first,
    then an OIDC identity. *)
Lemma setup_success_overwrites_witness :
  (fixture.aksSetup fixture.aksItems fixture.oidcIdentity fixture.aksProvider).1.1
  = None /\
  fixture.aksSetup fixture.aksItems fixture.oidcIdentity
    (fixture.aksSetup fixture.aksItems fixture.awsIdentity fixture.aksProvider).1.2
  = fixture.aksSetup fixture.aksItems fixture.oidcIdentity fixture.aksProvider.
Proof.
  split; [reflexivity|].
  apply (setup_success_overwrites unit tt fixture.ErrUnsupportedIdentity
           fixture.Unmarshall fixture.aksItems fixture.oidcIdentity
           fixture.aksItems fixture.awsIdentity fixture.aksProvider eq_refl).
Defined.

(** An instance of [New_then_setup]: a provider made with a client, then set
    up with a refused identity, has its configuration and no authorizer. *)
Lemma New_then_setup_witness :
  exists p,
    azure.New unit (errors_New "http client required")
      (azure.mkPluginCreationInput (zap.mkSugaredLogger "kconnect") true
         (Some (khttp.mkClient "default")))
    = (Some p, None) /\
    (fixture.aksSetup fixture.aksItems fixture.awsIdentity p).1
    = (Some fixture.ErrUnsupportedIdentity,
       azure.mkProvider unit (Some (azure.zeroConfig unit tt)) None
         (Some (khttp.mkClient "default")) true (zap.mkSugaredLogger "kconnect")).
Proof.
  destruct (New_then_setup unit tt (errors_New "http client required")
              fixture.ErrUnsupportedIdentity fixture.Unmarshall
              (azure.mkPluginCreationInput (zap.mkSugaredLogger "kconnect") true
                 (Some (khttp.mkClient "default")))
              (khttp.mkClient "default") fixture.aksItems
              (azure.zeroConfig unit tt) fixture.awsIdentity eq_refl eq_refl)
    as (p & Hn & _ & _ & Hs).
  exists p. split; [exact Hn | exact Hs].
Defined.
